(** * Vision Insight Lab (app.py): a shallow embedding and its properties

    The script [app.py] is a Streamlit page: it resolves an API key, reads a
    few widgets, composes a prompt, encodes the uploaded image in base64,
    sends one streaming chat-completion request and renders the reply while
    it arrives.  This file embeds the logic of the script (lines 40-76, 84-90
    and 128-160) and proves the properties stated about it.

    Python values are modelled as follows:
    - [str] is a list of Unicode code points ([pystr]);
    - [bytes] is a list of [Byte.byte];
    - a [dict] with string keys is an association list in insertion order,
      read with [dict_get] ([prompt_map], [st.secrets], the JSON-like payload
      of the request);
    - [st.secrets] is the parsed secrets file, or nothing when no secrets file
      exists, in which case reading it raises;
    - widget output and the calls of the OpenAI client are effects, recorded in
      a trace;
    - exceptions are values of [exn], threaded by a small trace/error monad. *)

From Stdlib Require Import NArith List Strings.String Strings.Ascii Strings.Byte QArith.
From stdpp Require Import base option list.

Local Open Scope N_scope.

(** ** Python strings *)

Module PyStr.

(** A Python [str]: the sequence of its code points. *)
Abbreviation pystr := (list N).

(** String literals of the source are written as Rocq string literals, whose
    bytes are the UTF-8 encoding of the text; [utf8_decode] recovers the code
    points.  Only well-formed input matters here: the literals of [app.py]. *)
Fixpoint utf8_decode (bs : list N) : pystr :=
  match bs with
  | [] => []
  | b0 :: r0 =>
    if b0 <? 128 then b0 :: utf8_decode r0
    else if b0 <? 224 then
      match r0 with
      | b1 :: r1 => (b0 mod 32 * 64 + b1 mod 64) :: utf8_decode r1
      | _ => []
      end
    else if b0 <? 240 then
      match r0 with
      | b1 :: b2 :: r2 =>
        (b0 mod 16 * 4096 + b1 mod 64 * 64 + b2 mod 64) :: utf8_decode r2
      | _ => []
      end
    else
      match r0 with
      | b1 :: b2 :: b3 :: r3 =>
        (b0 mod 8 * 262144 + b1 mod 64 * 4096 + b2 mod 64 * 64 + b3 mod 64)
          :: utf8_decode r3
      | _ => []
      end
  end.

Definition py (s : string) : pystr :=
  utf8_decode (map N_of_ascii (list_ascii_of_string s)).

Arguments py : simpl never.

(** [bool(s)] for a string: true unless the string is empty. *)
Definition truthy (s : pystr) : bool :=
  match s with [] => false | _ :: _ => true end.

(** [bool(x)] for a value that is a string or [None]. *)
Definition truthy_opt (o : option pystr) : bool :=
  match o with None => false | Some s => truthy s end.

(** [str.isspace] on one code point (CPython's [_PyUnicode_IsWhitespace]). *)
Definition is_whitespace (c : N) : bool :=
  ((9 <=? c) && (c <=? 13)) || ((28 <=? c) && (c <=? 32))
  || (c =? 133) || (c =? 160) || (c =? 5760)
  || ((8192 <=? c) && (c <=? 8202))
  || (c =? 8232) || (c =? 8233) || (c =? 8239) || (c =? 8287) || (c =? 12288).

Fixpoint lstrip (s : pystr) : pystr :=
  match s with
  | [] => []
  | c :: r => if is_whitespace c then lstrip r else s
  end.

Definition rstrip (s : pystr) : pystr := reverse (lstrip (reverse s)).

(** [s.strip()] with no argument. *)
Definition strip (s : pystr) : pystr := rstrip (lstrip s).

(** [sep.join(parts)] for [sep = ""]: plain concatenation. *)
Definition concat_str (parts : list pystr) : pystr := concat parts.

End PyStr.
Import PyStr.

(** ** base64 (RFC 4648, the alphabet of [base64.b64encode]) *)

Module Base64.

Definition alphabet : pystr :=
  Eval vm_compute in
    py "ABCDEFGHIJKLMNOPQRSTUVWXYZabcdefghijklmnopqrstuvwxyz0123456789+/".

(** The padding character [=]. *)
Definition pad : N := 61.

(** The character of a 6-bit value. *)
Definition b64_char (s : N) : N := nth (N.to_nat s) alphabet pad.

Fixpoint index_of (c : N) (l : list N) (i : N) : option N :=
  match l with
  | [] => None
  | x :: r => if c =? x then Some i else index_of c r (N.succ i)
  end.

(** The 6-bit value of a character of the alphabet. *)
Definition b64_index (c : N) : option N := index_of c alphabet 0.

(** Three octets, as four 6-bit groups, most significant bits first. *)
Definition sextets (a b c : N) : N * N * N * N :=
  (N.shiftr a 2,
   N.lor (N.shiftl (N.land a 3) 4) (N.shiftr b 4),
   N.lor (N.shiftl (N.land b 15) 2) (N.shiftr c 6),
   N.land c 63).

(** Four 6-bit groups, as three octets. *)
Definition octets (s0 s1 s2 s3 : N) : N * N * N :=
  (N.lor (N.shiftl s0 2) (N.shiftr s1 4),
   N.lor (N.shiftl (N.land s1 15) 4) (N.shiftr s2 2),
   N.lor (N.shiftl (N.land s2 3) 6) s3).

Definition byte_of (n : N) : byte :=
  match Byte.of_N (n mod 256) with Some b => b | None => x00 end.

(** [base64.b64encode(data)]: every three bytes give four characters; one
    or two bytes left over give two or three characters and padding. *)
Fixpoint b64encode (data : list byte) : list N :=
  match data with
  | [] => []
  | [a] =>
    let '(s0, s1, _, _) := sextets (Byte.to_N a) 0 0 in
    [b64_char s0; b64_char s1; pad; pad]
  | [a; b] =>
    let '(s0, s1, s2, _) := sextets (Byte.to_N a) (Byte.to_N b) 0 in
    [b64_char s0; b64_char s1; b64_char s2; pad]
  | a :: b :: c :: rest =>
    let '(s0, s1, s2, s3) :=
      sextets (Byte.to_N a) (Byte.to_N b) (Byte.to_N c) in
    b64_char s0 :: b64_char s1 :: b64_char s2 :: b64_char s3
      :: b64encode rest
  end.

(** The inverse transform, [base64.b64decode] on canonical input: groups of
    four characters of the alphabet, padding only in the last group.
    [None] stands for [binascii.Error]. *)
Fixpoint b64decode (cs : list N) : option (list byte) :=
  match cs with
  | [] => Some []
  | c0 :: c1 :: c2 :: c3 :: rest =>
    match b64_index c0, b64_index c1 with
    | Some s0, Some s1 =>
      if c2 =? pad then
        match rest with
        | [] =>
          if c3 =? pad then
            let '(a, _, _) := octets s0 s1 0 0 in Some [byte_of a]
          else None
        | _ :: _ => None
        end
      else
        match b64_index c2 with
        | Some s2 =>
          if c3 =? pad then
            match rest with
            | [] =>
              let '(a, b, _) := octets s0 s1 s2 0 in
              Some [byte_of a; byte_of b]
            | _ :: _ => None
            end
          else
            match b64_index c3 with
            | Some s3 =>
              let '(a, b, c) := octets s0 s1 s2 s3 in
              match b64decode rest with
              | Some tl => Some (byte_of a :: byte_of b :: byte_of c :: tl)
              | None => None
              end
            | None => None
            end
        | None => None
        end
    | _, _ => None
    end
  | _ => None
  end.

End Base64.
Import Base64.

(** ** Values, exceptions and effects *)

(** The JSON-like values of the request payload. *)
#[local] Unset Elimination Schemes.
Inductive pyval :=
| VStr (s : pystr)
| VInt (n : Z)
| VBool (b : bool)
| VList (items : list pyval)
| VDict (fields : list (pystr * pyval)).
#[local] Set Elimination Schemes.

(** [s == t] on strings. *)
Fixpoint eqb_str (s t : pystr) : bool :=
  match s, t with
  | [], [] => true
  | c :: s', d :: t' => (c =? d) && eqb_str s' t'
  | _, _ => false
  end.

(** [d.get(key)] on a dict with string keys, [None] when the key is
    missing. *)
Fixpoint dict_get {V} (key : pystr) (d : list (pystr * V)) : option V :=
  match d with
  | [] => None
  | (k, v) :: rest => if eqb_str key k then Some v else dict_get key rest
  end.

(** [v[key]] and [v[i]], [None] when [v] has no such member. *)
Definition member (key : pystr) (v : pyval) : option pyval :=
  match v with VDict fields => dict_get key fields | _ => None end.

Definition item (i : nat) (v : pyval) : option pyval :=
  match v with VList items => nth_error items i | _ => None end.

(** The exceptions the script can meet.  [APIError] stands for whatever the
    OpenAI client raises (authentication, connection, malformed stream); its
    argument is the text [str(e)] of the exception.  [SecretNotFoundError] is
    what Streamlit raises when [st.secrets] is read and no secrets file
    exists. *)
Inductive exn :=
| KeyError (key : pystr)
| IndexError (msg : pystr)
| AttributeError (msg : pystr)
| ValueError (msg : pystr)
| APIError (msg : pystr)
| SecretNotFoundError (msg : pystr).

(** What the script does to the page, the file and the OpenAI client.
    [Create] is one call of [client.chat.completions.create]; the HTTP
    attempts the client makes inside one call (it retries on its own) are not
    modelled.  [Uncaught] ends a run: an exception that nothing catches stops
    the script. *)
Inductive action :=
| Warning (body : pystr)
| Spinner (text : pystr)
| GetValue (name : pystr)
| BoxEmpty
| Create (api_key : pystr) (kwargs : list (pystr * pyval))
| BoxMarkdown (body : pystr)
| Success (body : pystr)
| Markdown (body : pystr)
| Write (body : pystr)
| Error (body : pystr)
| Uncaught (e : exn).

(** A computation: the actions performed so far, and an exception or a
    result. *)
Definition M (A : Type) : Type := list action * (exn + A).

#[export] Instance M_ret : MRet M := fun A x => ([], inr x).

#[export] Instance M_bind : MBind M := fun A B f m =>
  match m with
  | (t, inl e) => (t, inl e)
  | (t, inr a) => let '(t', r) := f a in (t ++ t', r)
  end.

Definition emit (a : action) : M unit := ([a], inr tt).

Definition raise {A} (e : exn) : M A := ([], inl e).

(** [try: body / except Exception as e: handler(e)]. *)
Definition try_except {A} (body : M A) (handler : exn -> M A) : M A :=
  match body with
  | (t, inl e) => let '(t', r) := handler e in (t ++ t', r)
  | (t, inr a) => (t, inr a)
  end.

Definition trace {A} (m : M A) : list action := fst m.

(** The calls of [client.chat.completions.create] in a trace, each with the
    key of the client and the keyword arguments. *)
Fixpoint requests (t : list action) : list (pystr * list (pystr * pyval)) :=
  match t with
  | [] => []
  | Create key kwargs :: rest => (key, kwargs) :: requests rest
  | _ :: rest => requests rest
  end.

(** What the placeholder [message_box] shows after a trace: nothing, or the
    last text rendered into it. *)
Fixpoint box_after (t : list action) (shown : option pystr) : option pystr :=
  match t with
  | [] => shown
  | BoxEmpty :: rest => box_after rest None
  | BoxMarkdown body :: rest => box_after rest (Some body)
  | _ :: rest => box_after rest shown
  end.

(** ** The stream of the remote endpoint *)

(** One event of the stream: [event.choices[0].delta.content]. *)
Record Delta := { content : option pystr }.
Record Choice := { delta : option Delta }.
Record Event := { choices : list Choice }.

(** What [client.chat.completions.create] does with a request: it raises, or
    it yields events and then ends or raises. *)
Inductive response :=
| Refused (e : exn)
| Streamed (events : list Event) (failure : option exn).

(** The event that carries one text fragment. *)
Definition fragment (s : pystr) : Event :=
  {| choices := [ {| delta := Some {| content := Some s |} |} ] |}.

(** An uploaded file: a [BytesIO] with a name and a MIME type. *)
Record UploadedFile := {
  name : pystr;
  mime : pystr;
  data : list byte;
  closed : bool
}.

(** ** app.py, lines 40-76 *)

Definition nl : pystr := [10].

Definition marker : pystr := py "▌".

(** [file.getvalue()]. *)
Definition getvalue (file : UploadedFile) : M (list byte) :=
  if closed file then raise (ValueError (py "I/O operation on closed file."))
  else emit (GetValue (name file)) ;; mret (data file).

(** [encode_image]; decoding the ASCII output of [b64encode] as UTF-8 gives
    the same code points. *)
Definition encode_image (file : UploadedFile) : M pystr :=
  bytes ← getvalue file; mret (b64encode bytes).

(** [get_client]: a client when there is a key, [None] otherwise.  A client
    is [OpenAI(api_key=key)] with the defaults of the library (its timeouts
    and its own HTTP retries), so it is known by its key. *)
Definition get_client (api_key : option pystr) : option pystr :=
  if truthy_opt api_key then api_key else None.

Definition messages (base64_img prompt : pystr) : pyval :=
  VList [
    VDict [
      (py "role", VStr (py "user"));
      (py "content", VList [
        VDict [(py "type", VStr (py "text")); (py "text", VStr prompt)];
        VDict [(py "type", VStr (py "image_url"));
               (py "image_url",
                VDict [(py "url",
                        VStr (py "data:image/png;base64," ++ base64_img))])]
      ])
    ]
  ].

(** The keyword arguments of [client.chat.completions.create]. *)
Definition create_kwargs (base64_img prompt model : pystr)
  : list (pystr * pyval) :=
  [ (py "model", VStr model);
    (py "messages", messages base64_img prompt);
    (py "max_tokens", VInt 1200);
    (py "stream", VBool true) ].

(** The body of the [for event in stream] loop, on the running total. *)
Definition on_event (full : pystr) (event : Event) : M pystr :=
  match choices event with
  | [] => raise (IndexError (py "list index out of range"))
  | choice :: _ =>
    match delta choice with
    | Some d =>
      match content d with
      | Some text =>
        if truthy text then
          let full := full ++ text in
          emit (BoxMarkdown (full ++ marker)) ;; mret full
        else mret full
      | None => mret full
      end
    | None => mret full
    end
  end.

Fixpoint consume (full : pystr) (events : list Event) : M pystr :=
  match events with
  | [] => mret full
  | event :: rest => full ← on_event full event; consume full rest
  end.

Definition analyze_image (api : list (pystr * pyval) -> response)
    (api_key : option pystr) (base64_img prompt model : pystr) : M pystr :=
  let kwargs := create_kwargs base64_img prompt model in
  let client := get_client api_key in
  emit BoxEmpty ;;
  match client with
  | None => raise (AttributeError (py "'NoneType' object has no attribute 'chat'"))
  | Some key =>
    emit (Create key kwargs) ;;
    match api kwargs with
    | Refused e => raise e
    | Streamed events failure =>
      full ← consume [] events;
      match failure with
      | Some e => raise e
      | None => emit (BoxMarkdown full) ;; mret full
      end
    end
  end.

(** ** app.py, lines 84-90: the API key *)

(** [st.secrets]: the entries of the secrets file, or no secrets file at all.
    Without a file every read of [st.secrets], the membership test of line 87
    included, raises; [msg] is the text Streamlit gives to the exception. *)
Inductive secrets_store :=
| NoSecretsFile (msg : pystr)
| SecretsFile (entries : list (pystr * pystr)).

(** Lines 84-90: the value stored in [st.session_state.api_key], or the
    exception of line 87. *)
Definition resolve_api_key (api_input : pystr) (secrets : secrets_store)
  : exn + option pystr :=
  if truthy api_input then inr (Some (strip api_input))
  else
    match secrets with
    | NoSecretsFile msg => inl (SecretNotFoundError msg)
    | SecretsFile entries =>
      match dict_get (py "OPENAI_API_KEY") entries with
      | Some secret => inr (Some secret)
      | None => inr None
      end
    end.

(** ** app.py, lines 92-136: the widgets *)

Definition model_options : list pystr := [py "gpt-4o-mini"; py "gpt-4o"].

Definition lang_options : list pystr := [py "Español"; py "Inglés"].

Definition upload_types : list pystr :=
  [py "jpg"; py "jpeg"; py "png"; py "webp"].

Definition mode_options : list pystr :=
  [py "Descripción general"; py "Análisis artístico";
   py "Análisis técnico"; py "Historia creativa"].

Definition prompt_map : list (pystr * pystr) :=
  [ (py "Descripción general",
     py "Describe con detalle lo que se observa en la imagen: objetos, colores, iluminación, contexto y emociones visuales.");
    (py "Análisis artístico",
     py "Analiza la composición, uso de color, balance visual, estilo artístico y posibles influencias estéticas.");
    (py "Análisis técnico",
     py "Evalúa calidad técnica: foco, exposición, profundidad de campo, iluminación, texturas y realismo.");
    (py "Historia creativa",
     py "Imagina una historia corta inspirada en la escena de la imagen. Escríbela con un tono poético o narrativo.") ].

(** What the user has entered when the script runs. *)
Record inputs := {
  api_input : pystr;
  secrets : secrets_store;
  model : pystr;
  lang : pystr;
  creativity : Q;
  show_prompts : bool;
  uploaded : option UploadedFile;
  user_context : pystr;
  mode : pystr;
  analyze : bool
}.

(** ** app.py, lines 141-160: the analysis *)

Definition lang_suffix (lang : pystr) : pystr :=
  if eqb_str lang (py "Español") then py "Responde en español."
  else py "Respond in English.".

(** Lines 150-154. *)
Definition full_prompt (mode lang user_context : pystr) : M pystr :=
  match dict_get mode prompt_map with
  | None => raise (KeyError mode)
  | Some base_prompt =>
    let full_prompt := base_prompt ++ nl ++ nl ++ lang_suffix lang in
    if truthy user_context then
      mret (full_prompt ++ nl ++ nl ++ py "Contexto adicional del usuario:"
              ++ nl ++ user_context)
    else mret full_prompt
  end.

(** Lines 148-158: the body of the [try]. *)
Definition analysis (api : list (pystr * pyval) -> response)
    (api_key : option pystr) (file : UploadedFile) (i : inputs) : M unit :=
  emit (Spinner (py "Analizando imagen con GPT-4o...")) ;;
  base64_img ← encode_image file;
  prompt ← full_prompt (mode i) (lang i) (user_context i);
  result ← analyze_image api api_key base64_img prompt (model i);
  emit (Success (py "✅ Análisis completado")) ;;
  emit (Markdown (py "### 🧩 Resultado")) ;;
  emit (Write result).

(** [str(e)]; the text of a [KeyError] is [repr] of the key, and [repr] is the
    Python builtin, taken as a parameter. *)
Definition str_exn (repr : pystr -> pystr) (e : exn) : pystr :=
  match e with
  | KeyError key => repr key
  | IndexError msg | AttributeError msg | ValueError msg | APIError msg
  | SecretNotFoundError msg => msg
  end.

(** Lines 84-90 and 141-160: what one run of the script does.  The key is
    resolved first; when that raises (line 87) the run stops there. *)
Definition main (repr : pystr -> pystr)
    (api : list (pystr * pyval) -> response) (i : inputs) : list action :=
  match resolve_api_key (api_input i) (secrets i) with
  | inl e => [Uncaught e]
  | inr api_key =>
    if analyze i then
      match uploaded i with
      | None => [Warning (py "📎 Por favor sube una imagen antes de analizar.")]
      | Some file =>
        if negb (truthy_opt api_key) then
          [Warning (py "🔑 Ingresa tu API key en la barra lateral.")]
        else
          trace (try_except (analysis api api_key file i)
                   (fun e => emit (Error (py "❌ Ocurrió un error: "
                                            ++ str_exn repr e))))
      end
    else []
  end.

(** ** Notions used to state the properties *)

(** What [message_box] shows when the loop of [analyze_image] has handled the
    first [k] fragments of a stream; the box is empty when the loop starts. *)
Definition shown_after (frags : list pystr) (k : nat) : option pystr :=
  box_after (trace (consume [] (map fragment (take k frags)))) None.

(** A text rendered while the stream is in progress: it ends with the
    marker. *)
Definition in_progress (body : pystr) : Prop :=
  exists full, body = full ++ marker.

(** Every character of [s] is whitespace. *)
Definition blank (s : pystr) : Prop := Forall (fun c => is_whitespace c = true) s.

(** [s] neither begins nor ends with whitespace. *)
Definition trimmed (s : pystr) : Prop :=
  (forall c, head s = Some c -> is_whitespace c = false) /\
  (forall c, last s = Some c -> is_whitespace c = false).

(** The labelled block that carries the context of the user; nothing when
    there is no context. *)
Definition context_block (user_context : pystr) : pystr :=
  if truthy user_context then
    nl ++ nl ++ py "Contexto adicional del usuario:" ++ nl ++ user_context
  else [].

(** The values the selection widgets of the page can return. *)
Definition from_page (i : inputs) : Prop :=
  mode i ∈ mode_options /\ lang i ∈ lang_options /\ model i ∈ model_options.

(** The same inputs with another position of the creativity slider. *)
Definition with_creativity (c : Q) (i : inputs) : inputs :=
  {| api_input := api_input i; secrets := secrets i; model := model i;
     lang := lang i; creativity := c; show_prompts := show_prompts i;
     uploaded := uploaded i; user_context := user_context i;
     mode := mode i; analyze := analyze i |}.

(** [kwargs["messages"][0]["content"][1]["image_url"]["url"]]. *)
Definition image_url (kwargs : list (pystr * pyval)) : option pyval :=
  msgs ← dict_get (py "messages") kwargs;
  msg ← item 0 msgs;
  parts ← member (py "content") msg;
  part ← item 1 parts;
  ref ← member (py "image_url") part;
  member (py "url") ref.

(** The network call, or the consumption of the stream it opens, raises
    [e]. *)
Definition fails_with (r : response) (e : exn) : Prop :=
  match r with
  | Refused e' => e' = e
  | Streamed events failure =>
    match consume [] events with
    | (_, inl e') => e' = e
    | (_, inr _) => failure = Some e
    end
  end.

(** [encode_image] raises on [file]. *)
Definition encode_fails (file : UploadedFile) : Prop :=
  exists t e, encode_image file = (t, inl e).

(** An action that renders a text in progress into the box. *)
Definition partial_render (a : action) : Prop :=
  exists full, a = BoxMarkdown (full ++ marker).

(** What [analysis] does before the endpoint answers, when the file can be
    read and the prompt is composed. *)
Definition prologue (key : pystr) (file : UploadedFile) (prompt model : pystr)
  : list action :=
  [ Spinner (py "Analizando imagen con GPT-4o...");
    GetValue (name file);
    BoxEmpty;
    Create key (create_kwargs (b64encode (data file)) prompt model) ].

(** What [analysis] does after a stream that ended well with the text
    [full]. *)
Definition epilogue (full : pystr) : list action :=
  [ BoxMarkdown full;
    Success (py "✅ Análisis completado");
    Markdown (py "### 🧩 Resultado");
    Write full ].

(** ** Sample runs *)

Definition sample_file : UploadedFile :=
  {| name := py "foto.jpg"; mime := py "image/jpeg";
     data := [x4d; x61; x6e]; closed := false |}.

Definition sample_inputs : inputs :=
  {| api_input := py " sk-test "; secrets := SecretsFile []; model := py "gpt-4o";
     lang := py "Español"; creativity := 4 # 10; show_prompts := false;
     uploaded := Some sample_file; user_context := [];
     mode := py "Descripción general"; analyze := true |}.


(** An endpoint that rejects the key. *)
Definition rejecting (kwargs : list (pystr * pyval)) : response :=
  Refused (APIError (py "Incorrect API key provided")).

(** An endpoint that answers in two fragments. *)
Definition greeting (kwargs : list (pystr * pyval)) : response :=
  Streamed (map fragment [py "Hola"; py " mundo"]) None.

(** ** Notions used to state further properties *)

(** The text an event adds to the running total: the content of the delta of
    its first choice, nothing when the delta or the content is missing. *)
Definition event_text (event : Event) : pystr :=
  match choices event with
  | choice :: _ =>
    match delta choice with
    | Some d => match content d with Some text => text | None => [] end
    | None => []
    end
  | [] => []
  end.

(** [event.choices[0]] exists. *)
Definition has_choice (event : Event) : Prop := choices event <> [].

(** The texts rendered into the box along a trace, oldest first. *)
Fixpoint renders (t : list action) : list pystr :=
  match t with
  | [] => []
  | BoxMarkdown body :: rest => body :: renders rest
  | _ :: rest => renders rest
  end.

(** Each rendered text is the total rendered before, some more text, and the
    marker. *)
Fixpoint growing (full : pystr) (bodies : list pystr) : Prop :=
  match bodies with
  | [] => True
  | body :: rest =>
    exists more, more <> [] /\ body = (full ++ more) ++ marker
                 /\ growing (full ++ more) rest
  end.

(** An action that reports no outcome to the user: the spinner, the read of
    the file, the request, and the box while a text is in progress. *)
Definition quiet (a : action) : Prop :=
  match a with
  | Spinner _ | GetValue _ | BoxEmpty | Create _ _ => True
  | BoxMarkdown body => in_progress body
  | _ => False
  end.

(** A character of the base64 alphabet, or the padding. *)
Definition is_b64_char (c : N) : bool := existsb (N.eqb c) (pad :: alphabet).

(** A stream with events that carry no text. *)
Definition sample_events : list Event :=
  [ fragment [];
    fragment (py "Hola");
    {| choices := [ {| delta := Some {| content := None |} |} ] |};
    {| choices := [ {| delta := None |} ] |};
    fragment (py " mundo") ].

(** An endpoint that answers with [sample_events]. *)
Definition chatty (kwargs : list (pystr * pyval)) : response :=
  Streamed sample_events None.

(** The sample page with a file that cannot be read any more. *)
Definition sample_closed_file : inputs :=
  {| api_input := py " sk-test "; secrets := SecretsFile []; model := py "gpt-4o";
     lang := py "Español"; creativity := 4 # 10; show_prompts := false;
     uploaded := Some {| name := py "foto.jpg"; mime := py "image/jpeg";
                         data := [x4d; x61; x6e]; closed := true |};
     user_context := []; mode := py "Descripción general"; analyze := true |}.

(** The sample page with a mode the radio does not offer. *)
Definition sample_unknown_mode : inputs :=
  {| api_input := py " sk-test "; secrets := SecretsFile []; model := py "gpt-4o";
     lang := py "Español"; creativity := 4 # 10; show_prompts := false;
     uploaded := Some sample_file; user_context := [];
     mode := py "Resumen"; analyze := true |}.

(** The page as it is first opened where no secrets file exists: no key typed,
    nothing uploaded, button not pressed. *)
Definition sample_first_visit : inputs :=
  {| api_input := [];
     secrets := NoSecretsFile (py "No secrets found.");
     model := py "gpt-4o";
     lang := py "Español"; creativity := 4 # 10; show_prompts := false;
     uploaded := None; user_context := [];
     mode := py "Descripción general"; analyze := false |}.

(** The sample page with blanks in the key field and a configured secret. *)
Definition sample_blank_key : inputs :=
  {| api_input := py "   ";
     secrets := SecretsFile [(py "OPENAI_API_KEY", py "sk-secret")];
     model := py "gpt-4o";
     lang := py "Español"; creativity := 4 # 10; show_prompts := false;
     uploaded := Some sample_file; user_context := [];
     mode := py "Descripción general"; analyze := true |}.

(** * Properties *)

(** ** Literals and small runs of the encoder *)

Example py_marker : marker = [9612].
Proof. reflexivity. Qed.

Example py_accents : py "Español" = [69; 115; 112; 97; 241; 111; 108].
Proof. reflexivity. Qed.

Example py_emoji : py "❌ " = [10060; 32].
Proof. reflexivity. Qed.

Example b64_man : b64encode [x4d; x61; x6e] = py "TWFu".
Proof. reflexivity. Qed.

Example b64_ma : b64encode [x4d; x61] = py "TWE=".
Proof. reflexivity. Qed.

Example b64_m : b64encode [x4d] = py "TQ==".
Proof. reflexivity. Qed.

Example b64_dec_ma : b64decode (py "TWE=") = Some [x4d; x61].
Proof. reflexivity. Qed.

Example b64_dec_bad_padding : b64decode (py "TWE") = None.
Proof. reflexivity. Qed.

(** ** base64: decoding undoes encoding *)

Section Bounded.

(** A boolean property checked on [0 .. k-1] holds below [k]. *)
Lemma forall_below (k : nat) (P : N -> bool) :
  forallb P (map N.of_nat (seq 0 k)) = true ->
  forall n, n < N.of_nat k -> P n = true.
Proof.
  intros Hall n Hn.
  rewrite forallb_forall in Hall. apply Hall.
  apply in_map_iff. exists (N.to_nat n). split.
  - apply N2Nat.id.
  - apply in_seq. lia.
Qed.

Lemma forall_below2 (k : nat) (P : N -> N -> bool) :
  forallb (fun a => forallb (P a) (map N.of_nat (seq 0 k)))
          (map N.of_nat (seq 0 k)) = true ->
  forall a b, a < N.of_nat k -> b < N.of_nat k -> P a b = true.
Proof.
  intros Hall a b Ha Hb.
  apply (forall_below k (P a)); [|exact Hb].
  exact (forall_below k _ Hall a Ha).
Qed.

End Bounded.

Lemma to_N_lt (x : byte) : Byte.to_N x < 256.
Proof. pose proof (Byte.to_N_bounded x). lia. Qed.

Lemma byte_of_to_N (x : byte) : byte_of (Byte.to_N x) = x.
Proof.
  unfold byte_of. rewrite N.mod_small by apply to_N_lt.
  now rewrite Byte.of_to_N.
Qed.

(** Every 6-bit value has a character, which is not the padding and from
    which the value is recovered. *)
Lemma b64_index_char (s : N) :
  s < 64 -> b64_index (b64_char s) = Some s /\ (b64_char s =? pad) = false.
Proof.
  intros Hs.
  assert (H : (match b64_index (b64_char s) with
               | Some s' => s' =? s
               | None => false
               end && negb (b64_char s =? pad)) = true).
  { revert s Hs. apply (forall_below 64). vm_compute. reflexivity. }
  apply andb_true_iff in H as [H1 H2].
  split.
  - destruct (b64_index (b64_char s)); [|discriminate].
    apply N.eqb_eq in H1. now subst.
  - now apply negb_true_iff.
Qed.

(** The bit identities behind the regrouping of 3 x 8 bits as 4 x 6 bits,
    each checked on all octets. *)
Lemma sextet0_lt a : a < 256 -> N.shiftr a 2 < 64.
Proof.
  intros Ha. apply N.ltb_lt. revert a Ha.
  apply (forall_below 256). vm_compute. reflexivity.
Qed.

Lemma sextet3_lt c : N.land c 63 < 64.
Proof.
  change 63 with (N.ones 6). rewrite N.land_ones.
  apply N.mod_lt. discriminate.
Qed.

Lemma sextet1_lt a b :
  a < 256 -> b < 256 -> N.lor (N.shiftl (N.land a 3) 4) (N.shiftr b 4) < 64.
Proof.
  intros Ha Hb. apply N.ltb_lt. revert a b Ha Hb.
  apply (forall_below2 256). vm_compute. reflexivity.
Qed.

Lemma sextet2_lt b c :
  b < 256 -> c < 256 -> N.lor (N.shiftl (N.land b 15) 2) (N.shiftr c 6) < 64.
Proof.
  intros Hb Hc. apply N.ltb_lt. revert b c Hb Hc.
  apply (forall_below2 256). vm_compute. reflexivity.
Qed.

Lemma octet0_eq a b :
  a < 256 -> b < 256 ->
  N.lor (N.shiftl (N.shiftr a 2) 2)
        (N.shiftr (N.lor (N.shiftl (N.land a 3) 4) (N.shiftr b 4)) 4) = a.
Proof.
  intros Ha Hb. apply N.eqb_eq. revert a b Ha Hb.
  apply (forall_below2 256). vm_compute. reflexivity.
Qed.

Lemma octet1_high a b :
  a < 256 -> b < 256 ->
  N.land (N.lor (N.shiftl (N.land a 3) 4) (N.shiftr b 4)) 15 = N.shiftr b 4.
Proof.
  intros Ha Hb. apply N.eqb_eq. revert a b Ha Hb.
  apply (forall_below2 256). vm_compute. reflexivity.
Qed.

Lemma octet1_low b c :
  b < 256 -> c < 256 ->
  N.shiftr (N.lor (N.shiftl (N.land b 15) 2) (N.shiftr c 6)) 2 = N.land b 15.
Proof.
  intros Hb Hc. apply N.eqb_eq. revert b c Hb Hc.
  apply (forall_below2 256). vm_compute. reflexivity.
Qed.

Lemma octet1_join b :
  b < 256 -> N.lor (N.shiftl (N.shiftr b 4) 4) (N.land b 15) = b.
Proof.
  intros Hb. apply N.eqb_eq. revert b Hb.
  apply (forall_below 256). vm_compute. reflexivity.
Qed.

Lemma octet1_eq a b c :
  a < 256 -> b < 256 -> c < 256 ->
  N.lor (N.shiftl (N.land (N.lor (N.shiftl (N.land a 3) 4) (N.shiftr b 4)) 15) 4)
        (N.shiftr (N.lor (N.shiftl (N.land b 15) 2) (N.shiftr c 6)) 2) = b.
Proof.
  intros Ha Hb Hc.
  rewrite octet1_high, octet1_low by assumption. now apply octet1_join.
Qed.

Lemma octet2_eq b c :
  b < 256 -> c < 256 ->
  N.lor (N.shiftl (N.land (N.lor (N.shiftl (N.land b 15) 2) (N.shiftr c 6)) 3) 6)
        (N.land c 63) = c.
Proof.
  intros Hb Hc. apply N.eqb_eq. revert b c Hb Hc.
  apply (forall_below2 256). vm_compute. reflexivity.
Qed.

(** Induction on a list of bytes, three at a time: the shape of
    [b64encode]. *)
Lemma list_ind3 {A} (P : list A -> Prop) :
  P [] -> (forall a, P [a]) -> (forall a b, P [a; b]) ->
  (forall a b c l, P l -> P (a :: b :: c :: l)) ->
  forall l, P l.
Proof.
  intros H0 H1 H2 H3.
  fix IH 1. intros [|a [|b [|c l]]].
  - exact H0.
  - apply H1.
  - apply H2.
  - apply H3, IH.
Qed.

(** [b64decode] on a full group of four characters of the alphabet. *)
Lemma b64decode_group c0 c1 c2 c3 s0 s1 s2 s3 rest :
  b64_index c0 = Some s0 -> b64_index c1 = Some s1 ->
  b64_index c2 = Some s2 -> b64_index c3 = Some s3 ->
  (c2 =? pad) = false -> (c3 =? pad) = false ->
  b64decode (c0 :: c1 :: c2 :: c3 :: rest) =
  let '(a, b, c) := octets s0 s1 s2 s3 in
  match b64decode rest with
  | Some tl => Some (byte_of a :: byte_of b :: byte_of c :: tl)
  | None => None
  end.
Proof.
  intros E0 E1 E2 E3 P2 P3.
  cbn [b64decode]. rewrite E0, E1, P2, E2, P3, E3. reflexivity.
Qed.

Lemma b64decode_pad1 c0 c1 c2 s0 s1 s2 :
  b64_index c0 = Some s0 -> b64_index c1 = Some s1 ->
  b64_index c2 = Some s2 -> (c2 =? pad) = false ->
  b64decode [c0; c1; c2; pad] =
  let '(a, b, _) := octets s0 s1 s2 0 in Some [byte_of a; byte_of b].
Proof.
  intros E0 E1 E2 P2.
  cbn [b64decode]. rewrite E0, E1, P2, E2. reflexivity.
Qed.

Lemma b64decode_pad2 c0 c1 s0 s1 :
  b64_index c0 = Some s0 -> b64_index c1 = Some s1 ->
  b64decode [c0; c1; pad; pad] =
  let '(a, _, _) := octets s0 s1 0 0 in Some [byte_of a].
Proof.
  intros E0 E1.
  cbn [b64decode]. rewrite E0, E1. reflexivity.
Qed.

(** Decoding undoes encoding, on every byte sequence. *)
Lemma b64decode_b64encode (data : list byte) :
  b64decode (b64encode data) = Some data.
Proof.
  induction data as [|a|a b|a b c rest IH] using list_ind3.
  - reflexivity.
  - pose proof (to_N_lt a) as Ha.
    cbn [b64encode sextets].
    destruct (b64_index_char (N.shiftr (Byte.to_N a) 2)) as [E0 _];
      [now apply sextet0_lt|].
    destruct (b64_index_char
                (N.lor (N.shiftl (N.land (Byte.to_N a) 3) 4) (N.shiftr 0 4)))
      as [E1 _]; [now apply sextet1_lt|].
    rewrite (b64decode_pad2 _ _ _ _ E0 E1). cbn [octets].
    rewrite octet0_eq by (assumption || reflexivity).
    now rewrite byte_of_to_N.
  - pose proof (to_N_lt a) as Ha. pose proof (to_N_lt b) as Hb.
    cbn [b64encode sextets].
    destruct (b64_index_char (N.shiftr (Byte.to_N a) 2)) as [E0 _];
      [now apply sextet0_lt|].
    destruct (b64_index_char
                (N.lor (N.shiftl (N.land (Byte.to_N a) 3) 4)
                       (N.shiftr (Byte.to_N b) 4)))
      as [E1 _]; [now apply sextet1_lt|].
    destruct (b64_index_char
                (N.lor (N.shiftl (N.land (Byte.to_N b) 15) 2) (N.shiftr 0 6)))
      as [E2 P2]; [now apply sextet2_lt|].
    rewrite (b64decode_pad1 _ _ _ _ _ _ E0 E1 E2 P2). cbn [octets].
    rewrite octet0_eq, octet1_eq by (assumption || reflexivity).
    now rewrite !byte_of_to_N.
  - pose proof (to_N_lt a) as Ha. pose proof (to_N_lt b) as Hb.
    pose proof (to_N_lt c) as Hc.
    cbn [b64encode sextets].
    destruct (b64_index_char (N.shiftr (Byte.to_N a) 2)) as [E0 _];
      [now apply sextet0_lt|].
    destruct (b64_index_char
                (N.lor (N.shiftl (N.land (Byte.to_N a) 3) 4)
                       (N.shiftr (Byte.to_N b) 4)))
      as [E1 _]; [now apply sextet1_lt|].
    destruct (b64_index_char
                (N.lor (N.shiftl (N.land (Byte.to_N b) 15) 2)
                       (N.shiftr (Byte.to_N c) 6)))
      as [E2 P2]; [now apply sextet2_lt|].
    destruct (b64_index_char (N.land (Byte.to_N c) 63)) as [E3 P3];
      [apply sextet3_lt|].
    rewrite (b64decode_group _ _ _ _ _ _ _ _ _ E0 E1 E2 E3 P2 P3).
    cbn [octets]. rewrite IH.
    rewrite octet0_eq, octet1_eq, octet2_eq by assumption.
    now rewrite !byte_of_to_N.
Qed.

(** C4: for every byte sequence held by an uploaded file, the image encoder
    returns a text whose base64 decoding is that byte sequence. *)
Theorem encode_image_roundtrip (name mime : pystr) (data : list byte) :
  exists text,
    encode_image {| name := name; mime := mime; data := data; closed := false |}
      = ([GetValue name], inr text)
    /\ b64decode text = Some data.
Proof.
  exists (b64encode data). split.
  - reflexivity.
  - apply b64decode_b64encode.
Qed.

(** ** [str.strip] *)

Lemma lstrip_split (s : pystr) :
  exists l, s = l ++ lstrip s /\ blank l.
Proof.
  induction s as [|c s [l [E B]]].
  - exists []. split; [reflexivity | constructor].
  - cbn [lstrip]. destruct (is_whitespace c) eqn:W.
    + exists (c :: l). split.
      * cbn. now rewrite <- E.
      * now constructor.
    + exists []. split; [reflexivity | constructor].
Qed.

Lemma lstrip_head (s : pystr) (c : N) :
  head (lstrip s) = Some c -> is_whitespace c = false.
Proof.
  induction s as [|d s IH]; cbn [lstrip].
  - discriminate.
  - destruct (is_whitespace d) eqn:W; [exact IH|].
    cbn. intros [= <-]. exact W.
Qed.

Lemma rstrip_split (s : pystr) :
  exists r, s = rstrip s ++ r /\ blank r.
Proof.
  unfold rstrip. destruct (lstrip_split (reverse s)) as [l [E B]].
  exists (reverse l). split.
  - rewrite <- reverse_app, <- E. now rewrite reverse_involutive.
  - now apply Forall_reverse.
Qed.

Lemma rstrip_last (s : pystr) (c : N) :
  last (rstrip s) = Some c -> is_whitespace c = false.
Proof.
  unfold rstrip. rewrite last_reverse. apply lstrip_head.
Qed.

Lemma rstrip_head (s : pystr) (c : N) :
  (forall d, head s = Some d -> is_whitespace d = false) ->
  head (rstrip s) = Some c -> is_whitespace c = false.
Proof.
  intros Hs Hc. destruct (rstrip_split s) as [r [E _]].
  destruct (rstrip s) as [|d t] eqn:R; [discriminate|].
  cbn in Hc. injection Hc as <-.
  apply Hs. rewrite E. reflexivity.
Qed.

(** [s.strip()] removes a blank prefix and a blank suffix of [s], and what is
    left neither begins nor ends with whitespace. *)
Lemma strip_spec (s : pystr) :
  (exists l r, s = l ++ strip s ++ r /\ blank l /\ blank r) /\ trimmed (strip s).
Proof.
  unfold strip. split.
  - destruct (lstrip_split s) as [l [El Bl]].
    destruct (rstrip_split (lstrip s)) as [r [Er Br]].
    exists l, r. split; [|split; assumption].
    now rewrite <- Er.
  - split; intros c Hc.
    + eapply rstrip_head; [|exact Hc]. apply lstrip_head.
    + eapply rstrip_last, Hc.
Qed.

Example strip_key : strip (py "  sk-abc ") = py "sk-abc".
Proof. reflexivity. Qed.

Example strip_blank : strip (py "   ") = [].
Proof. reflexivity. Qed.

(** ** The API key (lines 84-90) *)

(** X17: what lines 84-90 store when they return.  A non-empty entry gives
    the entry stripped of the whitespace around it, whatever the secrets are,
    even when no secrets file exists; an empty entry gives the secret of an
    existing secrets file when it has one, and no key ([None]) when it has
    none; an empty secret is a key the script treats as missing. *)
Theorem resolve_api_key_spec (api_input : pystr) (secrets : secrets_store) :
  (api_input <> [] ->
     resolve_api_key api_input secrets = inr (Some (strip api_input))
     /\ (exists l r, api_input = l ++ strip api_input ++ r /\ blank l /\ blank r)
     /\ trimmed (strip api_input))
  /\ (api_input = [] ->
      forall entries secret,
        secrets = SecretsFile entries ->
        dict_get (py "OPENAI_API_KEY") entries = Some secret ->
        resolve_api_key api_input secrets = inr (Some secret))
  /\ (api_input = [] ->
      forall entries,
        secrets = SecretsFile entries ->
        dict_get (py "OPENAI_API_KEY") entries = None ->
        resolve_api_key api_input secrets = inr None)
  /\ (api_input = [] ->
      forall entries,
        secrets = SecretsFile entries ->
        truthy_opt (dict_get (py "OPENAI_API_KEY") entries) = false ->
        exists api_key,
          resolve_api_key api_input secrets = inr api_key
          /\ truthy_opt api_key = false).
Proof.
  unfold resolve_api_key. split; [|split; [|split]].
  - intros Hne. split; [|apply strip_spec].
    destruct api_input; [congruence | reflexivity].
  - intros -> entries secret -> ->. reflexivity.
  - intros -> entries -> ->. reflexivity.
  - intros -> entries ->. cbn [truthy].
    destruct (dict_get _ entries) as [secret|]; intros Hfalsy; eexists;
      (split; [reflexivity | exact Hfalsy]).
Qed.

Lemma resolve_api_key_witness :
  resolve_api_key (py " sk-user ")
    (SecretsFile [(py "OPENAI_API_KEY", py "sk-secret")])
    = inr (Some (py "sk-user"))
  /\ resolve_api_key (py " sk-user ") (NoSecretsFile (py "No secrets found."))
     = inr (Some (py "sk-user"))
  /\ resolve_api_key [] (SecretsFile [(py "OPENAI_API_KEY", py "sk-secret")])
     = inr (Some (py "sk-secret"))
  /\ resolve_api_key [] (SecretsFile []) = inr None.
Proof.
  pose proof (resolve_api_key_spec (py " sk-user ")
                (SecretsFile [(py "OPENAI_API_KEY", py "sk-secret")]))
    as [H1 _].
  pose proof (resolve_api_key_spec (py " sk-user ")
                (NoSecretsFile (py "No secrets found."))) as [H1' _].
  pose proof (resolve_api_key_spec []
                (SecretsFile [(py "OPENAI_API_KEY", py "sk-secret")]))
    as [_ [H2 _]].
  pose proof (resolve_api_key_spec [] (SecretsFile [])) as [_ [_ [H3 _]]].
  split; [|split; [|split]].
  - destruct H1 as [H1 _]; [vm_compute; discriminate|].
    rewrite H1. vm_compute. reflexivity.
  - destruct H1' as [H1' _]; [vm_compute; discriminate|].
    rewrite H1'. vm_compute. reflexivity.
  - apply (H2 eq_refl _ _ eq_refl). vm_compute. reflexivity.
  - apply (H3 eq_refl _ eq_refl). reflexivity.
Defined.

(** C3: the claim fails where neither key exists in the plainest way: nothing
    typed and no secrets file.  Lines 84-90 then store nothing: the membership
    test of line 87 raises, nothing catches it, and the run stops there
    whatever the other widgets hold, so the warning about the key of line 145
    is never shown.  With an empty secrets file the same lines store [None],
    as the claim says. *)
Theorem resolve_api_key_no_secrets_file (msg : pystr) :
  resolve_api_key [] (NoSecretsFile msg) = inl (SecretNotFoundError msg)
  /\ (forall repr api i,
        api_input i = [] -> secrets i = NoSecretsFile msg ->
        main repr api i = [Uncaught (SecretNotFoundError msg)])
  /\ resolve_api_key [] (SecretsFile []) = inr None.
Proof.
  split; [reflexivity|]. split; [|reflexivity].
  intros repr api i Hentry Hstore. unfold main. now rewrite Hentry, Hstore.
Qed.

Lemma resolve_api_key_no_secrets_file_witness :
  main (fun s => s) greeting sample_first_visit
  = [Uncaught (SecretNotFoundError (py "No secrets found."))].
Proof.
  apply (resolve_api_key_no_secrets_file (py "No secrets found."));
    reflexivity.
Defined.

(** ** The streaming loop (lines 62-76) *)

Lemma truthy_app (s t : pystr) : truthy (s ++ t) = truthy s || truthy t.
Proof. now destruct s. Qed.

Lemma truthy_false (s : pystr) : truthy s = false -> s = [].
Proof. now destruct s. Qed.

(** One event that carries the text [s]. *)
Lemma on_event_fragment (full s : pystr) :
  on_event full (fragment s) =
  if truthy s then ([BoxMarkdown ((full ++ s) ++ marker)], inr (full ++ s))
  else ([], inr full).
Proof. unfold on_event. cbn. now destruct (truthy s). Qed.

(** The loop may be cut anywhere: handling [es1 ++ es2] is handling [es1] and
    then [es2] from the total reached. *)
Lemma consume_app (es1 es2 : list Event) (full : pystr) :
  consume full (es1 ++ es2) = (full' ← consume full es1; consume full' es2).
Proof.
  revert full. induction es1 as [|e es1 IH]; intros full.
  - cbn. now destruct (consume full es2).
  - cbn [app consume]. unfold mbind, M_bind in *.
    destruct (on_event full e) as [t [x|full']]; [reflexivity|].
    rewrite IH.
    destruct (consume full' es1) as [t1 [x|full1]]; [reflexivity|].
    destruct (consume full1 es2) as [t2 r2]. now rewrite app_assoc.
Qed.

(** On a stream of fragments the loop returns their concatenation, and the
    box shows it with the marker as soon as some text has arrived. *)
Lemma consume_fragments (frags : list pystr) :
  forall (full : pystr) (shown : option pystr),
  exists t,
    consume full (map fragment frags) = (t, inr (full ++ concat_str frags))
    /\ box_after t shown =
       (if truthy (concat_str frags)
        then Some ((full ++ concat_str frags) ++ marker) else shown)
    /\ requests t = [].
Proof.
  unfold concat_str.
  induction frags as [|s frags IH]; intros full shown.
  - exists []. cbn. now rewrite app_nil_r.
  - cbn [map consume concat]. rewrite on_event_fragment.
    destruct (truthy s) eqn:Ts.
    + destruct (IH (full ++ s) (Some ((full ++ s) ++ marker)))
        as [t [Et [Bt Rt]]].
      exists (BoxMarkdown ((full ++ s) ++ marker) :: t).
      unfold mbind, M_bind. rewrite Et.
      rewrite truthy_app, Ts. cbn [orb app box_after requests].
      rewrite Bt, Rt, <- !app_assoc. repeat split.
      destruct (truthy (concat frags)) eqn:Tc; [reflexivity|].
      apply truthy_false in Tc. now rewrite Tc.
    + apply truthy_false in Ts. subst s.
      destruct (IH full shown) as [t [Et [Bt Rt]]].
      exists t. unfold mbind, M_bind. rewrite Et. cbn [app].
      repeat split; assumption.
Qed.

(** C2, as stated, fails when the first event carries an empty text (as the
    first chunk of a chat completion does): the loop skips it, and the box
    still shows nothing, not the bare marker. *)
Lemma shown_after_empty_fragment :
  shown_after [ [] ] 1 = None
  /\ shown_after [ [] ] 1 <> Some (concat_str (take 1 [ [] ]) ++ marker).
Proof. split; [reflexivity | discriminate]. Qed.

(** C2 (amended): for every finite sequence of fragments, once some text has
    arrived the box shows, after each fragment, the concatenation of the
    fragments received so far followed by the marker, and before that it
    shows nothing; each of these states is a state of the run of
    [analyze_image]; when the stream ends the box shows the whole
    concatenation without the marker, which is also the value returned.  For
    the fragments "Hola", " mundo" the box shows "Hola▌", "Hola mundo▌" and at
    the end "Hola mundo". *)
Theorem analyze_image_stream
    (api : list (pystr * pyval) -> response) (key base64_img prompt model : pystr)
    (frags : list pystr) :
  truthy key = true ->
  api (create_kwargs base64_img prompt model)
    = Streamed (map fragment frags) None ->
  (forall k, (k <= length frags)%nat ->
     shown_after frags k =
       (if truthy (concat_str (take k frags))
        then Some (concat_str (take k frags) ++ marker) else None))
  /\ (exists t,
        analyze_image api (Some key) base64_img prompt model
          = (t, inr (concat_str frags))
        /\ box_after t None = Some (concat_str frags)
        /\ forall k, (k <= length frags)%nat ->
           exists rest,
             t = BoxEmpty :: Create key (create_kwargs base64_img prompt model)
                   :: trace (consume [] (map fragment (take k frags))) ++ rest)
  /\ (shown_after [py "Hola"; py " mundo"] 1 = Some (py "Hola▌")
      /\ shown_after [py "Hola"; py " mundo"] 2 = Some (py "Hola mundo▌")
      /\ concat_str [py "Hola"; py " mundo"] = py "Hola mundo").
Proof.
  intros Hkey Hapi. split; [|split].
  - intros k _. unfold shown_after.
    destruct (consume_fragments (take k frags) [] None) as [t [Et [Bt _]]].
    rewrite Et. exact Bt.
  - destruct (consume_fragments frags [] None) as [t [Et _]].
    exists (BoxEmpty :: Create key (create_kwargs base64_img prompt model)
              :: t ++ [BoxMarkdown (concat_str frags)]).
    unfold analyze_image, get_client. cbn [truthy_opt]. rewrite Hkey, Hapi.
    unfold mbind, M_bind, emit, mret, M_ret. rewrite Et. cbn.
    split; [reflexivity|]. split.
    + clear Et. generalize (@None pystr).
      induction t as [|a t IH]; intros shown; [reflexivity|].
      destruct a; cbn; apply IH.
    + intros k Hk.
      rewrite <- (take_drop k frags), map_app, consume_app in Et.
      destruct (consume_fragments (take k frags) [] None) as [t1 [Et1 _]].
      rewrite Et1 in Et |- *. unfold mbind, M_bind in Et.
      destruct (consume _ (map fragment (drop k frags))) as [t2 r2].
      injection Et as <- _. cbn [trace fst].
      exists (t2 ++ [BoxMarkdown (concat_str frags)]).
      now rewrite <- app_assoc.
  - repeat split.
Qed.

Lemma analyze_image_stream_witness :
  exists t,
    analyze_image
      (fun _ => Streamed (map fragment [py "Hola"; py " mundo"]) None)
      (Some (py "sk-test")) (py "TWFu") (py "Describe") (py "gpt-4o")
    = (t, inr (py "Hola mundo"))
    /\ box_after t None = Some (py "Hola mundo").
Proof.
  destruct (analyze_image_stream
              (fun _ => Streamed (map fragment [py "Hola"; py " mundo"]) None)
              (py "sk-test") (py "TWFu") (py "Describe") (py "gpt-4o")
              [py "Hola"; py " mundo"] eq_refl eq_refl)
    as [_ [[t [Et [Bt _]]] _]].
  exists t. split; [exact Et | exact Bt].
Defined.

(** ** The prompt (lines 128-133 and 150-154) *)

Lemma eqb_str_eq (s t : pystr) : eqb_str s t = true <-> s = t.
Proof.
  revert t. induction s as [|c s IH]; intros [|d t]; cbn; try easy.
  rewrite andb_true_iff, N.eqb_eq, IH. split.
  - now intros [-> ->].
  - now intros [= -> ->].
Qed.

(** A key that is not bound has no value. *)
Lemma dict_get_None {V} (key : pystr) (d : list (pystr * V)) :
  key ∉ d.*1 -> dict_get key d = None.
Proof.
  induction d as [|[k v] d IH]; [reflexivity|].
  rewrite fmap_cons. cbn [fst dict_get]. intros [Hk Hd]%not_elem_of_cons.
  destruct (eqb_str key k) eqn:E.
  - apply eqb_str_eq in E. contradiction.
  - exact (IH Hd).
Qed.

Lemma prompt_keys : prompt_map.*1 = mode_options.
Proof. reflexivity. Qed.

(** [prompt_map] has a template for each of the four modes and for nothing
    else. *)
Lemma prompt_map_Some (m : pystr) :
  m ∈ mode_options -> exists template, dict_get m prompt_map = Some template.
Proof.
  intros Hm. unfold mode_options in Hm.
  repeat (apply elem_of_cons in Hm as [->|Hm];
          [eexists; vm_compute; reflexivity|]).
  now apply elem_of_nil in Hm.
Qed.

Lemma prompt_map_None (m : pystr) :
  m ∉ mode_options -> dict_get m prompt_map = None.
Proof.
  intros Hm. apply dict_get_None. now rewrite prompt_keys.
Qed.

Lemma context_block_nil (user_context : pystr) :
  context_block user_context = [] <-> user_context = [].
Proof.
  unfold context_block. destruct user_context as [|c s]; [tauto|].
  cbn [truthy]. unfold nl. split; discriminate.
Qed.

(** C1: for each of the four modes, every language and every context, the
    prompt is the template of the mode, a blank line, the directive of the
    language and then, exactly when the context is not empty, the labelled
    block that ends with the context, unchanged; the directive is one fixed
    sentence per language. *)
Theorem full_prompt_spec (m language user_context : pystr) :
  m ∈ mode_options ->
  (exists template,
     dict_get m prompt_map = Some template
     /\ full_prompt m language user_context
        = ([], inr (template ++ nl ++ nl ++ lang_suffix language
                      ++ context_block user_context)))
  /\ (user_context = [] <-> context_block user_context = [])
  /\ (user_context <> [] ->
      context_block user_context
      = nl ++ nl ++ py "Contexto adicional del usuario:" ++ nl ++ user_context)
  /\ lang_suffix (py "Español") = py "Responde en español."
  /\ lang_suffix (py "Inglés") = py "Respond in English.".
Proof.
  intros Hm. split; [|split; [|split; [|split]]].
  - destruct (prompt_map_Some m Hm) as [template Hlook].
    exists template. split; [exact Hlook|].
    unfold full_prompt, context_block. rewrite Hlook.
    destruct (truthy user_context).
    + now rewrite <- !app_assoc.
    + now rewrite !app_nil_r.
  - symmetry. apply context_block_nil.
  - unfold context_block. now destruct user_context.
  - reflexivity.
  - reflexivity.
Qed.

(** Scenario 1: general description, no context, Spanish. *)
Lemma full_prompt_witness :
  full_prompt (py "Descripción general") (py "Español") []
  = ([], inr (py "Describe con detalle lo que se observa en la imagen: objetos, colores, iluminación, contexto y emociones visuales."
              ++ nl ++ nl ++ py "Responde en español.")).
Proof.
  destruct (full_prompt_spec (py "Descripción general") (py "Español") [])
    as [[template [Hin E]] _].
  - unfold mode_options. apply list_elem_of_here.
  - rewrite E. vm_compute in Hin. injection Hin as <-.
    vm_compute. reflexivity.
Defined.

(** C9: the composition is a function that returns a prompt for each of the
    four modes, which are the modes the page can select, and raises
    [KeyError] for every other mode. *)
Theorem full_prompt_total (m language context : pystr) :
  (m ∈ mode_options ->
     exists prompt, full_prompt m language context = ([], inr prompt))
  /\ (m ∉ mode_options ->
      full_prompt m language context = ([], inl (KeyError m)))
  /\ (forall k : pystr, is_Some (dict_get k prompt_map) <-> k ∈ mode_options)
  /\ length mode_options = 4%nat
  /\ (forall i, from_page i ->
      exists prompt,
        full_prompt (mode i) (lang i) (user_context i)
        = ([], inr prompt)).
Proof.
  assert (Hok : forall m' l' c', m' ∈ mode_options ->
            exists prompt, full_prompt m' l' c' = ([], inr prompt)).
  { intros m' l' c' Hm. destruct (prompt_map_Some m' Hm) as [template Hlook].
    unfold full_prompt. rewrite Hlook.
    destruct (truthy c'); eexists; reflexivity. }
  split; [|split; [|split; [|split]]].
  - apply Hok.
  - intros Hm. unfold full_prompt. now rewrite (prompt_map_None m Hm).
  - intros k. split.
    + intros [template Hlook].
      destruct (decide (k ∈ mode_options)) as [Hin|Hout]; [exact Hin|].
      rewrite (prompt_map_None k Hout) in Hlook. discriminate.
    + intros Hin. destruct (prompt_map_Some k Hin) as [template Hlook].
      now exists template.
  - reflexivity.
  - intros i [Hm _]. now apply Hok.
Qed.

Lemma full_prompt_total_witness :
  (exists prompt,
     full_prompt (py "Historia creativa") (py "Inglés") (py "un faro")
     = ([], inr prompt))
  /\ full_prompt (py "Resumen") (py "Inglés") []
     = ([], inl (KeyError (py "Resumen"))).
Proof.
  split.
  - apply (full_prompt_total (py "Historia creativa") (py "Inglés") (py "un faro")).
    unfold mode_options. do 3 apply list_elem_of_further. apply list_elem_of_here.
  - apply (full_prompt_total (py "Resumen") (py "Inglés") []).
    unfold mode_options. intros Hin.
    repeat (apply elem_of_cons in Hin as [Hin|Hin]; [discriminate Hin|]).
    now apply elem_of_nil in Hin.
Defined.

(** ** The analysis (lines 141-160) *)

Lemma requests_app (t1 t2 : list action) :
  requests (t1 ++ t2) = requests t1 ++ requests t2.
Proof.
  induction t1 as [|a t1 IH]; [reflexivity|].
  destruct a; cbn; now rewrite IH.
Qed.

Lemma requests_partial (t : list action) :
  Forall partial_render t -> requests t = [].
Proof.
  induction 1 as [|a t [full ->] _ IH]; [reflexivity | exact IH].
Qed.

Lemma bind_ret {A B} (x : A) (f : A -> M B) : (mret x ≫= f) = f x.
Proof. unfold mbind, M_bind, mret, M_ret. now destruct (f x). Qed.

(** The loop only renders texts in progress. *)
Lemma consume_trace (events : list Event) :
  forall full, Forall partial_render (trace (consume full events)).
Proof.
  induction events as [|event events IH]; intros full.
  - constructor.
  - cbn [consume]. unfold on_event.
    destruct (choices event) as [|choice _]; [constructor|].
    destruct (delta choice) as [[[text|]]|]; cbn [content];
      rewrite ?bind_ret; try apply IH.
    destruct (truthy text); rewrite ?bind_ret; [|apply IH].
    specialize (IH (full ++ text)). unfold mbind, M_bind, emit, mret, M_ret.
    destruct (consume (full ++ text) events) as [t r].
    cbn [trace fst app] in *. constructor; [|exact IH].
    now exists (full ++ text).
Qed.

Lemma full_prompt_cases (m language context : pystr) :
  full_prompt m language context = ([], inl (KeyError m))
  \/ exists prompt, full_prompt m language context = ([], inr prompt).
Proof.
  unfold full_prompt. destruct (dict_get m prompt_map); [right|now left].
  destruct (truthy context); eexists; reflexivity.
Qed.

(** The run of [analysis] when the file can be read, the prompt is composed
    and the key is not empty: one request, and then what the endpoint
    decides. *)
Lemma analysis_run (api : list (pystr * pyval) -> response)
    (key : pystr) (file : UploadedFile) (i : inputs) (prompt : pystr) :
  closed file = false -> truthy key = true ->
  full_prompt (mode i) (lang i) (user_context i) = ([], inr prompt) ->
  analysis api (Some key) file i =
  match api (create_kwargs (b64encode (data file)) prompt (model i)) with
  | Refused e => (prologue key file prompt (model i), inl e)
  | Streamed events failure =>
    match consume [] events with
    | (t, inl e) => (prologue key file prompt (model i) ++ t, inl e)
    | (t, inr full) =>
      match failure with
      | Some e => (prologue key file prompt (model i) ++ t, inl e)
      | None => (prologue key file prompt (model i) ++ t ++ epilogue full, inr tt)
      end
    end
  end.
Proof.
  intros Hclosed Hkey Hprompt.
  unfold analysis, encode_image, getvalue, analyze_image, get_client.
  rewrite Hclosed, Hprompt. cbn [truthy_opt]. rewrite Hkey.
  unfold mbind, M_bind, emit, mret, M_ret, raise, prologue, epilogue.
  destruct (api _) as [e|events failure]; [reflexivity|].
  destruct (consume [] events) as [t [e|full]]; [reflexivity|].
  destruct failure as [e|]; cbn [app]; [now rewrite app_nil_r|].
  now rewrite <- !app_assoc.
Qed.

(** When the file cannot be read or the mode has no template, [analysis]
    stops before any request. *)
Lemma analysis_early (api : list (pystr * pyval) -> response)
    (key : option pystr) (file : UploadedFile) (i : inputs) :
  closed file = true
  \/ full_prompt (mode i) (lang i) (user_context i)
     = ([], inl (KeyError (mode i))) ->
  exists t e, analysis api key file i = (t, inl e) /\ requests t = [].
Proof.
  unfold analysis, encode_image, getvalue.
  destruct (closed file).
  - intros _. do 2 eexists. split; reflexivity.
  - intros [?|Hprompt]; [discriminate|]. rewrite Hprompt.
    do 2 eexists. split; reflexivity.
Qed.

(** Every run of the script sends at most one request, and a request it sends
    is made of the encoded upload, the composed prompt and the selected
    model. *)
Lemma requests_main (repr : pystr -> pystr)
    (api : list (pystr * pyval) -> response) (i : inputs) :
  requests (main repr api i) = []
  \/ exists file key prompt,
       uploaded i = Some file
       /\ resolve_api_key (api_input i) (secrets i) = inr (Some key)
       /\ full_prompt (mode i) (lang i) (user_context i) = ([], inr prompt)
       /\ requests (main repr api i)
          = [(key, create_kwargs (b64encode (data file)) prompt (model i))].
Proof.
  unfold main.
  destruct (resolve_api_key (api_input i) (secrets i)) as [e|[key|]] eqn:Hres;
    [now left| |destruct (analyze i), (uploaded i); now left].
  destruct (analyze i); [|now left].
  destruct (uploaded i) as [file|]; [|now left].
  cbn [truthy_opt negb]. destruct (truthy key) eqn:Hkey; [|now left].
  cbn [negb].
  destruct (closed file) eqn:Hclosed.
  { left. destruct (analysis_early api (Some key) file i) as [t [e [E R]]];
      [now left|].
    rewrite E. cbn. rewrite requests_app, R. reflexivity. }
  destruct (full_prompt_cases (mode i) (lang i) (user_context i))
    as [Hprompt|[prompt Hprompt]].
  { left. destruct (analysis_early api (Some key) file i) as [t [e [E R]]];
      [now right|].
    rewrite E. cbn. rewrite requests_app, R. reflexivity. }
  right. exists file, key, prompt. repeat split; try assumption.
  rewrite (analysis_run api key file i prompt Hclosed Hkey Hprompt).
  destruct (api _) as [e|events failure]; [reflexivity|].
  pose proof (requests_partial _ (consume_trace events [])) as Hloop.
  destruct (consume [] events) as [t [e|full]]; cbn [trace fst] in Hloop.
  - cbn. now rewrite !requests_app, Hloop.
  - destruct failure as [e|]; cbn.
    + now rewrite !requests_app, Hloop.
    + now rewrite !requests_app, Hloop.
Qed.


(** The shape of a run that failed after the request. *)
Lemma failed_run_actions (key : pystr) (file : UploadedFile)
    (prompt model : pystr) (partials : list action) (msg : pystr) (a : action) :
  Forall partial_render partials ->
  a ∈ prologue key file prompt model ++ partials ++ [Error msg] ->
  a = Spinner (py "Analizando imagen con GPT-4o...")
  \/ a = GetValue (name file)
  \/ a = BoxEmpty
  \/ a = Create key (create_kwargs (b64encode (data file)) prompt model)
  \/ partial_render a
  \/ a = Error msg.
Proof.
  intros Hpartials Hin.
  apply elem_of_app in Hin as [Hin|Hin].
  - unfold prologue in Hin.
    repeat (apply elem_of_cons in Hin as [->|Hin]; [tauto|]).
    now apply elem_of_nil in Hin.
  - apply elem_of_app in Hin as [Hin|Hin].
    + rewrite Forall_forall in Hpartials. right; right; right; right; left.
      now apply Hpartials.
    + apply list_elem_of_singleton in Hin. tauto.
Qed.

(** C6: when the call to the endpoint, or the consumption of its stream,
    raises an exception, the run ends with one error message made of a fixed
    prefix and the text of the exception; the request was sent once; nothing
    reports a success, no result is written, and every text rendered in the
    box still carries the marker of a text in progress. *)
Theorem failure_reported (repr : pystr -> pystr)
    (api : list (pystr * pyval) -> response) (i : inputs)
    (file : UploadedFile) (key prompt : pystr) (e : exn) :
  analyze i = true ->
  uploaded i = Some file -> closed file = false ->
  resolve_api_key (api_input i) (secrets i) = inr (Some key) ->
  truthy key = true ->
  full_prompt (mode i) (lang i) (user_context i) = ([], inr prompt) ->
  fails_with (api (create_kwargs (b64encode (data file)) prompt (model i))) e ->
  (exists partials,
     Forall partial_render partials
     /\ main repr api i
        = prologue key file prompt (model i) ++ partials
            ++ [Error (py "❌ Ocurrió un error: " ++ str_exn repr e)])
  /\ requests (main repr api i)
     = [(key, create_kwargs (b64encode (data file)) prompt (model i))]
  /\ (forall body,
        Success body ∉ main repr api i
        /\ Write body ∉ main repr api i
        /\ (BoxMarkdown body ∈ main repr api i -> in_progress body))
  /\ (forall msg, e = APIError msg ->
      Error (py "❌ Ocurrió un error: " ++ msg) ∈ main repr api i).
Proof.
  intros Hgo Hup Hclosed Hres Hkey Hprompt Hfail.
  assert (Hrun : exists partials,
     Forall partial_render partials
     /\ main repr api i
        = prologue key file prompt (model i) ++ partials
            ++ [Error (py "❌ Ocurrió un error: " ++ str_exn repr e)]).
  { unfold main. rewrite Hres, Hgo, Hup. cbn [truthy_opt]. rewrite Hkey.
    cbn [negb].
    rewrite (analysis_run api key file i prompt Hclosed Hkey Hprompt).
    unfold fails_with in Hfail.
    destruct (api _) as [e'|events failure].
    - subst e'. exists []. split; [constructor | reflexivity].
    - pose proof (consume_trace events []) as Hloop.
      destruct (consume [] events) as [t [e'|full]]; cbn [trace fst] in Hloop.
      + subst e'. exists t. split; [exact Hloop|].
        cbn [try_except emit trace fst]. now rewrite <- app_assoc.
      + subst failure. exists t. split; [exact Hloop|].
        cbn [try_except emit trace fst]. now rewrite <- app_assoc. }
  destruct Hrun as [partials [Hpartials Hmain]].
  split; [now exists partials|]. rewrite Hmain. split; [|split].
  - rewrite !requests_app, (requests_partial _ Hpartials). reflexivity.
  - intros body. repeat split.
    + intros Hin.
      apply (failed_run_actions _ _ _ _ _ _ _ Hpartials) in Hin
        as [H|[H|[H|[H|[[x H]|H]]]]]; discriminate H.
    + intros Hin.
      apply (failed_run_actions _ _ _ _ _ _ _ Hpartials) in Hin
        as [H|[H|[H|[H|[[x H]|H]]]]]; discriminate H.
    + intros Hin.
      apply (failed_run_actions _ _ _ _ _ _ _ Hpartials) in Hin
        as [H|[H|[H|[H|[[x H]|H]]]]]; try discriminate H.
      injection H as ->. now exists x.
  - intros msg ->. rewrite !elem_of_app. right; right.
    apply list_elem_of_here.
Qed.


Lemma sample_prompt :
  full_prompt (mode sample_inputs) (lang sample_inputs)
    (user_context sample_inputs)
  = ([], inr (py "Describe con detalle lo que se observa en la imagen: objetos, colores, iluminación, contexto y emociones visuales."
              ++ nl ++ nl ++ py "Responde en español.")).
Proof. vm_compute. reflexivity. Qed.

(** Scenario 4: the endpoint rejects the key. *)
Lemma failure_reported_witness :
  Error (py "❌ Ocurrió un error: Incorrect API key provided")
    ∈ main (fun s => s) rejecting sample_inputs
  /\ forall body, Success body ∉ main (fun s => s) rejecting sample_inputs.
Proof.
  assert (Hres : resolve_api_key (api_input sample_inputs)
                   (secrets sample_inputs) = inr (Some (py "sk-test")))
    by (vm_compute; reflexivity).
  assert (Hkey : truthy (py "sk-test") = true) by (vm_compute; reflexivity).
  destruct (failure_reported (fun s => s) rejecting sample_inputs sample_file
              (py "sk-test") _ (APIError (py "Incorrect API key provided"))
              eq_refl eq_refl eq_refl Hres Hkey sample_prompt eq_refl)
    as [_ [_ [Hnone Herr]]].
  split.
  - assert (E : py "❌ Ocurrió un error: Incorrect API key provided"
                = py "❌ Ocurrió un error: " ++ py "Incorrect API key provided")
      by (vm_compute; reflexivity).
    rewrite E. apply (Herr _ eq_refl).
  - intros body. apply Hnone.
Defined.

(** ** The request (lines 48-69) *)

Lemma sample_request :
  requests (main (fun s => s) greeting sample_inputs)
  = [(py "sk-test",
      create_kwargs (py "TWFu")
        (py "Describe con detalle lo que se observa en la imagen: objetos, colores, iluminación, contexto y emociones visuales."
         ++ nl ++ nl ++ py "Responde en español.")
        (py "gpt-4o"))].
Proof. vm_compute. reflexivity. Qed.

(** C7: every request the script sends carries the selected model, one user
    message made of the prompt and of the image as a data URL, the ceiling of
    1200 tokens and the streaming flag, and nothing else: no temperature.  A
    run sends at most one request, and the position of the creativity slider
    changes nothing in what the run does. *)
Theorem request_payload (repr : pystr -> pystr)
    (api : list (pystr * pyval) -> response) (i : inputs)
    (key : pystr) (kwargs : list (pystr * pyval)) :
  (key, kwargs) ∈ requests (main repr api i) ->
  (exists file prompt,
     uploaded i = Some file
     /\ full_prompt (mode i) (lang i) (user_context i) = ([], inr prompt)
     /\ kwargs =
        [ (py "model", VStr (model i));
          (py "messages",
           VList [
             VDict [
               (py "role", VStr (py "user"));
               (py "content", VList [
                  VDict [(py "type", VStr (py "text"));
                         (py "text", VStr prompt)];
                  VDict [(py "type", VStr (py "image_url"));
                         (py "image_url",
                          VDict [(py "url",
                                  VStr (py "data:image/png;base64,"
                                          ++ b64encode (data file)))])]
                ])
             ]
           ]);
          (py "max_tokens", VInt 1200);
          (py "stream", VBool true) ])
  /\ dict_get (py "model") kwargs = Some (VStr (model i))
  /\ dict_get (py "max_tokens") kwargs = Some (VInt 1200)
  /\ dict_get (py "stream") kwargs = Some (VBool true)
  /\ dict_get (py "temperature") kwargs = None
  /\ (length (requests (main repr api i)) <= 1)%nat
  /\ (forall c, main repr api (with_creativity c i) = main repr api i).
Proof.
  intros Hin.
  destruct (requests_main repr api i)
    as [Hnone|[file [key' [prompt [Hup [Hres [Hprompt Hreq]]]]]]].
  { rewrite Hnone in Hin. now apply elem_of_nil in Hin. }
  rewrite Hreq in Hin |- *.
  apply list_elem_of_singleton in Hin. injection Hin as -> ->.
  split; [|split; [|split; [|split; [|split; [|split]]]]].
  - exists file, prompt. repeat split; assumption.
  - vm_compute. reflexivity.
  - vm_compute. reflexivity.
  - vm_compute. reflexivity.
  - vm_compute. reflexivity.
  - cbn [length]. lia.
  - intros c. reflexivity.
Qed.

Lemma request_payload_witness :
  exists kwargs,
    requests (main (fun s => s) greeting sample_inputs)
      = [(py "sk-test", kwargs)]
    /\ dict_get (py "max_tokens") kwargs = Some (VInt 1200)
    /\ dict_get (py "temperature") kwargs = None.
Proof.
  eexists. split; [apply sample_request|].
  assert (Hin : (py "sk-test",
                 create_kwargs (py "TWFu")
                   (py "Describe con detalle lo que se observa en la imagen: objetos, colores, iluminación, contexto y emociones visuales."
                    ++ nl ++ nl ++ py "Responde en español.")
                   (py "gpt-4o"))
                ∈ requests (main (fun s => s) greeting sample_inputs)).
  { rewrite sample_request. apply list_elem_of_here. }
  destruct (request_payload _ _ _ _ _ Hin) as [_ [_ [Hmax [_ [Htemp _]]]]].
  split; [exact Hmax | exact Htemp].
Defined.

(** C10: whatever the uploaded file is (its name, its declared type, its
    bytes), the image reference of a request is the data URL that declares
    [image/png], followed by the base64 text of the bytes. *)
Theorem image_reference (repr : pystr -> pystr)
    (api : list (pystr * pyval) -> response) (i : inputs)
    (file : UploadedFile) (key : pystr) (kwargs : list (pystr * pyval)) :
  uploaded i = Some file ->
  (key, kwargs) ∈ requests (main repr api i) ->
  image_url kwargs
  = Some (VStr (py "data:image/png;base64," ++ b64encode (data file))).
Proof.
  intros Hup Hin.
  destruct (requests_main repr api i)
    as [Hnone|[file' [key' [prompt [Hup' [_ [_ Hreq]]]]]]].
  { rewrite Hnone in Hin. now apply elem_of_nil in Hin. }
  rewrite Hreq in Hin. apply list_elem_of_singleton in Hin.
  injection Hin as -> ->.
  rewrite Hup in Hup'. injection Hup' as <-.
  vm_compute. reflexivity.
Qed.

(** A JPEG upload is announced as PNG. *)
Lemma image_reference_witness :
  mime sample_file = py "image/jpeg"
  /\ image_url
       (create_kwargs (py "TWFu")
          (py "Describe con detalle lo que se observa en la imagen: objetos, colores, iluminación, contexto y emociones visuales."
           ++ nl ++ nl ++ py "Responde en español.")
          (py "gpt-4o"))
     = Some (VStr (py "data:image/png;base64," ++ b64encode (data sample_file))).
Proof.
  split; [reflexivity|].
  apply (image_reference (fun s => s) greeting sample_inputs sample_file
           (py "sk-test")); [reflexivity|].
  rewrite sample_request. apply list_elem_of_here.
Defined.

(** ** The encoder on an empty or unreadable file (lines 40-42) *)

(** C8, as stated, fails on an empty file: the encoder returns the empty text
    and raises nothing. *)
Lemma encode_image_empty_returns :
  let file := {| name := py "vacio.png"; mime := py "image/png";
                 data := []; closed := false |} in
  encode_image file = ([GetValue (py "vacio.png")], inr [])
  /\ ~ (encode_fails file <-> data file = [] \/ closed file = true).
Proof.
  split; [reflexivity|].
  intros [_ Hfail]. destruct Hfail as [t [e E]]; [now left|].
  discriminate E.
Qed.

(** C8 (amended): the encoder raises exactly when the file cannot be read;
    on a readable file it returns the base64 text of the bytes, which is the
    empty text for the empty byte sequence. *)
Theorem encode_image_fails_iff (file : UploadedFile) :
  (encode_fails file <-> closed file = true)
  /\ (closed file = false ->
      encode_image file = ([GetValue (name file)], inr (b64encode (data file))))
  /\ b64encode [] = [].
Proof.
  unfold encode_fails, encode_image, getvalue. split; [|split].
  - destruct (closed file); split.
    + reflexivity.
    + intros _. do 2 eexists. reflexivity.
    + intros [t [e E]]. discriminate E.
    + discriminate.
  - intros ->. reflexivity.
  - reflexivity.
Qed.

Lemma encode_image_fails_iff_witness :
  encode_image sample_file = ([GetValue (py "foto.jpg")], inr (py "TWFu")).
Proof.
  destruct (encode_image_fails_iff sample_file) as [_ [Hret _]].
  rewrite (Hret eq_refl). vm_compute. reflexivity.
Defined.

(** ** Further runs *)

(** An entry made of blanks is not empty: the key is the empty string, and the
    secret is not consulted. *)
Example resolve_blank_entry :
  resolve_api_key (py "  ")
    (SecretsFile [(py "OPENAI_API_KEY", py "sk-secret")]) = inr (Some []).
Proof. vm_compute. reflexivity. Qed.

(** Events without text leave the box as it is. *)
Example stream_with_silent_events :
  consume []
    [ fragment [];
      fragment (py "Hola");
      {| choices := [ {| delta := Some {| content := None |} |} ] |};
      {| choices := [ {| delta := None |} ] |} ]
  = ([BoxMarkdown (py "Hola▌")], inr (py "Hola")).
Proof. vm_compute. reflexivity. Qed.

(** An event without choices stops the loop. *)
Example stream_without_choices :
  consume [] [ fragment (py "Hola"); {| choices := [] |}; fragment (py "!") ]
  = ([BoxMarkdown (py "Hola▌")],
     inl (IndexError (py "list index out of range"))).
Proof. vm_compute. reflexivity. Qed.

(** The whole run of the sample page against an endpoint that answers in two
    fragments. *)
Example sample_run :
  main (fun s => s) greeting sample_inputs
  = prologue (py "sk-test") sample_file
      (py "Describe con detalle lo que se observa en la imagen: objetos, colores, iluminación, contexto y emociones visuales."
       ++ nl ++ nl ++ py "Responde en español.")
      (py "gpt-4o")
    ++ [BoxMarkdown (py "Hola▌"); BoxMarkdown (py "Hola mundo▌")]
    ++ epilogue (py "Hola mundo").
Proof. vm_compute. reflexivity. Qed.

(** * Further properties *)

(** ** The encoder: size, characters, injectivity *)

Lemma b64_char_ok (s : N) :
  s < 64 -> is_b64_char (b64_char s) = true /\ b64_char s < 128.
Proof.
  intros Hs.
  assert (H : (is_b64_char (b64_char s) && (b64_char s <? 128)) = true).
  { revert s Hs. apply (forall_below 64). vm_compute. reflexivity. }
  apply andb_true_iff in H as [H1 H2]. split; [exact H1|].
  now apply N.ltb_lt.
Qed.

(** X1: the base64 text of [n] bytes has [4 * ceil(n / 3)] characters. *)
Theorem b64encode_length (data : list byte) :
  length (b64encode data) = (4 * ((length data + 2) / 3))%nat.
Proof.
  induction data as [|a|a b|a b c rest IH] using list_ind3.
  - reflexivity.
  - reflexivity.
  - reflexivity.
  - cbn [b64encode sextets length]. rewrite IH.
    replace (S (S (S (length rest))) + 2)%nat
      with (1 * 3 + (length rest + 2))%nat by lia.
    rewrite Nat.div_add_l by discriminate. lia.
Qed.

(** X2: every character of the base64 text is a character of the alphabet or
    the padding, hence ASCII: decoding the text as UTF-8 cannot fail and gives
    the same code points. *)
Theorem b64encode_chars (data : list byte) :
  Forall (fun c => is_b64_char c = true /\ c < 128) (b64encode data).
Proof.
  assert (Hpad : is_b64_char pad = true /\ pad < 128) by (split; reflexivity).
  induction data as [|a|a b|a b c rest IH] using list_ind3;
    [constructor| | |];
    pose proof (to_N_lt a) as Ha; try pose proof (to_N_lt b) as Hb;
    try pose proof (to_N_lt c) as Hc;
    cbn [b64encode sextets];
    repeat (apply Forall_cons; split;
            [first [ exact Hpad
                   | apply b64_char_ok;
                     first [ now apply sextet0_lt | now apply sextet1_lt
                           | now apply sextet2_lt | apply sextet3_lt ] ]|]);
    first [exact IH | constructor].
Qed.

(** X3: two readable files are encoded to the same text only when they hold
    the same bytes. *)
Theorem encode_image_injective (file1 file2 : UploadedFile) (text : pystr) :
  snd (encode_image file1) = inr text ->
  snd (encode_image file2) = inr text ->
  data file1 = data file2.
Proof.
  unfold encode_image, getvalue.
  destruct (closed file1); [discriminate|].
  destruct (closed file2); [discriminate|].
  cbn. intros [= E1] [= E2].
  pose proof (b64decode_b64encode (data file1)) as D1.
  pose proof (b64decode_b64encode (data file2)) as D2.
  rewrite E1 in D1. rewrite E2 in D2. congruence.
Qed.

Lemma encode_image_injective_witness :
  data sample_file = [x4d; x61; x6e].
Proof.
  apply (encode_image_injective sample_file
           {| name := py "copia.png"; mime := py "image/png";
              data := [x4d; x61; x6e]; closed := false |} (py "TWFu")).
  - vm_compute. reflexivity.
  - vm_compute. reflexivity.
Defined.

(** ** The streaming loop on arbitrary events *)

Lemma bind_pure {A B} (x : A) (f : A -> M B) :
  ((([], inr x) : M A) ≫= f) = f x.
Proof. apply bind_ret. Qed.

(** What one iteration of the loop does, by cases. *)
Lemma on_event_cases (full : pystr) (event : Event) :
  (choices event = []
   /\ on_event full event
      = ([], inl (IndexError (py "list index out of range"))))
  \/ (has_choice event /\ event_text event = []
      /\ on_event full event = ([], inr full))
  \/ (has_choice event /\ event_text event <> []
      /\ on_event full event
         = ([BoxMarkdown ((full ++ event_text event) ++ marker)],
            inr (full ++ event_text event))).
Proof.
  unfold on_event, event_text, has_choice.
  destruct (choices event) as [|choice rest]; [left; now split|right].
  destruct (delta choice) as [[[text|]]|]; cbn [content].
  - destruct text as [|c text]; [left|right].
    + split; [discriminate | split; reflexivity].
    + split; [discriminate | split; [discriminate | reflexivity]].
  - left. split; [discriminate | split; reflexivity].
  - left. split; [discriminate | split; reflexivity].
Qed.

(** X4: on a stream whose events all have a first choice the loop does not
    raise: it returns the total it started from followed by the texts of the
    first choices, in order; events without a delta, without a content or
    with an empty content add nothing, and the other choices of an event are
    never read.  The box then shows that total with the marker, unless no
    text arrived at all. *)
Theorem consume_texts (events : list Event) :
  Forall has_choice events ->
  forall (full : pystr) (shown : option pystr),
  exists t,
    consume full events
      = (t, inr (full ++ concat_str (map event_text events)))
    /\ box_after t shown =
       (if truthy (concat_str (map event_text events))
        then Some ((full ++ concat_str (map event_text events)) ++ marker)
        else shown).
Proof.
  unfold concat_str.
  induction 1 as [|event events Hev _ IH]; intros full shown.
  - exists []. cbn. now rewrite app_nil_r.
  - cbn [map concat consume].
    destruct (on_event_cases full event)
      as [[Hnone _]|[[_ [Hnil E]]|[_ [Htext E]]]].
    + contradiction.
    + rewrite E, bind_pure, Hnil. cbn [app]. apply IH.
    + rewrite E.
      destruct (IH (full ++ event_text event)
                  (Some ((full ++ event_text event) ++ marker)))
        as [t [Et Bt]].
      exists (BoxMarkdown ((full ++ event_text event) ++ marker) :: t).
      unfold mbind, M_bind. rewrite Et. cbn [app box_after].
      rewrite Bt, truthy_app, <- !app_assoc. split; [reflexivity|].
      destruct (event_text event) as [|c s]; [contradiction|].
      cbn [truthy orb].
      destruct (truthy (concat (map event_text events))) eqn:Tc;
        [reflexivity|].
      apply truthy_false in Tc. rewrite Tc. now rewrite ?app_nil_r.
Qed.

Lemma consume_texts_witness :
  consume [] sample_events
  = ([BoxMarkdown (py "Hola▌"); BoxMarkdown (py "Hola mundo▌")],
     inr (py "Hola mundo")).
Proof.
  assert (Hall : Forall has_choice sample_events)
    by (repeat constructor; discriminate).
  destruct (consume_texts sample_events Hall [] None) as [t [Et _]].
  rewrite Et. vm_compute in Et |- *.
  injection Et as <-. reflexivity.
Defined.

Lemma renders_app (t1 t2 : list action) :
  renders (t1 ++ t2) = renders t1 ++ renders t2.
Proof.
  induction t1 as [|a t1 IH]; [reflexivity|].
  destruct a; cbn; now rewrite IH.
Qed.

(** X5: the box never goes back.  Whatever the events are, each text rendered
    by the loop is the previous total followed by some new, non-empty text and
    the marker; and when the loop returns, the value returned is the last
    text rendered without its marker, or the initial total when nothing was
    rendered. *)
Theorem consume_growing (events : list Event) :
  forall full : pystr,
    growing full (renders (trace (consume full events)))
    /\ (forall total, snd (consume full events) = inr total ->
        match last (renders (trace (consume full events))) with
        | Some body => body = total ++ marker
        | None => total = full
        end).
Proof.
  induction events as [|event events IH]; intros full.
  - split; [exact I|]. cbn. now intros total [= <-].
  - cbn [consume].
    destruct (on_event_cases full event)
      as [[_ E]|[[_ [_ E]]|[_ [Htext E]]]]; rewrite E.
    + split; [exact I|]. cbn. discriminate.
    + rewrite bind_pure. apply IH.
    + destruct (IH (full ++ event_text event)) as [Hgrow Hlast].
      unfold mbind, M_bind.
      destruct (consume (full ++ event_text event) events) as [t r].
      cbn [trace fst snd app renders] in *. split.
      * exists (event_text event). now repeat split.
      * intros total Hr. specialize (Hlast total Hr).
        rewrite last_cons.
        destruct (last (renders t)) as [body|]; [exact Hlast|].
        now subst total.
Qed.

(** X6: an event without choices stops the loop with [IndexError]: what was
    rendered for the events before it stays, and the events after it are not
    handled. *)
Theorem consume_no_choice (before after : list Event) (event : Event)
    (full : pystr) :
  Forall has_choice before -> choices event = [] ->
  consume full (before ++ event :: after)
  = (trace (consume full before),
     inl (IndexError (py "list index out of range"))).
Proof.
  intros Hbefore Hnone.
  destruct (consume_texts before Hbefore full None) as [t [Et _]].
  rewrite consume_app, Et. unfold mbind, M_bind. cbn [consume trace fst].
  unfold on_event. rewrite Hnone. cbn. now rewrite app_nil_r.
Qed.

Lemma consume_no_choice_witness :
  consume [] [ fragment (py "Hola"); {| choices := [] |}; fragment (py "!") ]
  = ([BoxMarkdown (py "Hola▌")],
     inl (IndexError (py "list index out of range"))).
Proof.
  assert (Hbefore : Forall has_choice [fragment (py "Hola")])
    by (repeat constructor; discriminate).
  pose proof (consume_no_choice [fragment (py "Hola")] [fragment (py "!")]
                {| choices := [] |} [] Hbefore eq_refl) as E.
  cbn [app] in E. rewrite E. vm_compute. reflexivity.
Defined.

(** X7: [analyze_image] calls [client.chat.completions.create] exactly once
    when the key is usable, whatever that call does (it raises, it yields
    events, it fails in the middle of the stream): the script never makes the
    call a second time.  What the client does inside one call, its own HTTP
    retries included, is below this model.  Without a usable key ([None] or
    the empty string) no call is made: the box is emptied and
    [AttributeError] is raised, because [get_client] returned [None]. *)
Theorem analyze_image_requests (api : list (pystr * pyval) -> response)
    (api_key : option pystr) (base64_img prompt model : pystr) :
  (forall key, api_key = Some key -> truthy key = true ->
     requests (trace (analyze_image api api_key base64_img prompt model))
     = [(key, create_kwargs base64_img prompt model)])
  /\ (truthy_opt api_key = false ->
      analyze_image api api_key base64_img prompt model
      = ([BoxEmpty],
         inl (AttributeError (py "'NoneType' object has no attribute 'chat'"))))
  /\ (length (requests
                (trace (analyze_image api api_key base64_img prompt model)))
      <= 1)%nat.
Proof.
  assert (Hone : forall key, api_key = Some key -> truthy key = true ->
     requests (trace (analyze_image api api_key base64_img prompt model))
     = [(key, create_kwargs base64_img prompt model)]).
  { intros key -> Hkey. unfold analyze_image, get_client.
    cbn [truthy_opt]. rewrite Hkey.
    destruct (api _) as [e|events failure]; [reflexivity|].
    pose proof (requests_partial _ (consume_trace events [])) as Hloop.
    unfold mbind, M_bind, emit, mret, M_ret, raise.
    destruct (consume [] events) as [t [e|full]]; cbn [trace fst] in Hloop.
    - cbn. now rewrite Hloop.
    - destruct failure as [e|]; cbn; now rewrite requests_app, Hloop. }
  assert (Hnone : truthy_opt api_key = false ->
      analyze_image api api_key base64_img prompt model
      = ([BoxEmpty],
         inl (AttributeError (py "'NoneType' object has no attribute 'chat'")))).
  { intros Hkey. unfold analyze_image, get_client. now rewrite Hkey. }
  split; [exact Hone|]. split; [exact Hnone|].
  destruct (truthy_opt api_key) eqn:Hkey.
  - destruct api_key as [key|]; [|discriminate].
    rewrite (Hone key eq_refl Hkey). cbn. lia.
  - rewrite (Hnone eq_refl). cbn. lia.
Qed.

Lemma analyze_image_requests_witness :
  requests (trace (analyze_image rejecting (Some (py "sk-test")) (py "TWFu")
                     (py "Describe") (py "gpt-4o")))
  = [(py "sk-test", create_kwargs (py "TWFu") (py "Describe") (py "gpt-4o"))]
  /\ analyze_image greeting (Some []) (py "TWFu") (py "Describe") (py "gpt-4o")
     = ([BoxEmpty],
        inl (AttributeError (py "'NoneType' object has no attribute 'chat'"))).
Proof.
  split.
  - apply (analyze_image_requests rejecting (Some (py "sk-test")));
      [reflexivity | vm_compute; reflexivity].
  - apply (analyze_image_requests greeting (Some [])). reflexivity.
Defined.

(** ** Whole runs of the analysis *)

(** The run of [analysis] that stops before the request. *)
Lemma analysis_closed (api : list (pystr * pyval) -> response)
    (key : option pystr) (file : UploadedFile) (i : inputs) :
  closed file = true ->
  analysis api key file i
  = ([Spinner (py "Analizando imagen con GPT-4o...")],
     inl (ValueError (py "I/O operation on closed file."))).
Proof.
  intros Hclosed. unfold analysis, encode_image, getvalue.
  now rewrite Hclosed.
Qed.

Lemma analysis_unknown_mode (api : list (pystr * pyval) -> response)
    (key : option pystr) (file : UploadedFile) (i : inputs) :
  closed file = false ->
  full_prompt (mode i) (lang i) (user_context i)
    = ([], inl (KeyError (mode i))) ->
  analysis api key file i
  = ([Spinner (py "Analizando imagen con GPT-4o..."); GetValue (name file)],
     inl (KeyError (mode i))).
Proof.
  intros Hclosed Hprompt. unfold analysis, encode_image, getvalue.
  now rewrite Hclosed, Hprompt.
Qed.

Lemma quiet_prologue (key : pystr) (file : UploadedFile) (prompt model : pystr)
    (partials : list action) :
  Forall partial_render partials ->
  Forall quiet (prologue key file prompt model ++ partials).
Proof.
  intros Hpartials. apply Forall_app. split.
  - unfold prologue. repeat constructor.
  - eapply Forall_impl; [exact Hpartials|].
    intros a [full ->]. now exists full.
Qed.

Lemma quiet_no_outcome (pre : list action) (a : action) :
  Forall quiet pre -> a ∈ pre ->
  match a with
  | Warning _ | Success _ | Markdown _ | Write _ | Error _ => False
  | _ => True
  end.
Proof.
  intros Hpre Hin. rewrite Forall_forall in Hpre.
  specialize (Hpre a Hin). now destruct a.
Qed.



(** X9: when the file is read, the prompt composed, the key usable, and the
    endpoint streams events that all have a first choice and ends the stream
    normally, the run renders texts in progress and then the final text,
    reports the success and writes the result; the text written is the
    concatenation of the texts of the events, the same text as the final
    content of the box, and no error is reported. *)
Theorem successful_run (repr : pystr -> pystr)
    (api : list (pystr * pyval) -> response) (i : inputs)
    (file : UploadedFile) (key prompt : pystr) (events : list Event) :
  analyze i = true ->
  uploaded i = Some file -> closed file = false ->
  resolve_api_key (api_input i) (secrets i) = inr (Some key) ->
  truthy key = true ->
  full_prompt (mode i) (lang i) (user_context i) = ([], inr prompt) ->
  api (create_kwargs (b64encode (data file)) prompt (model i))
    = Streamed events None ->
  Forall has_choice events ->
  let full := concat_str (map event_text events) in
  (exists partials,
     Forall partial_render partials
     /\ main repr api i
        = prologue key file prompt (model i) ++ partials ++ epilogue full)
  /\ box_after (main repr api i) None = Some full
  /\ Write full ∈ main repr api i
  /\ (forall body, Error body ∉ main repr api i).
Proof.
  intros Hgo Hup Hclosed Hres Hkey Hprompt Hapi Hall full.
  assert (Hrun : exists partials,
     Forall partial_render partials
     /\ main repr api i
        = prologue key file prompt (model i) ++ partials ++ epilogue full).
  { unfold main. rewrite Hres, Hgo, Hup. cbn [truthy_opt]. rewrite Hkey.
    cbn [negb].
    rewrite (analysis_run api key file i prompt Hclosed Hkey Hprompt), Hapi.
    pose proof (consume_trace events []) as Hloop.
    destruct (consume_texts events Hall [] None) as [t [Et _]].
    rewrite Et in Hloop |- *. cbn [trace fst app] in *.
    exists t. split; [exact Hloop | reflexivity]. }
  destruct Hrun as [partials [Hpartials Hmain]].
  split; [now exists partials|]. rewrite Hmain. split; [|split].
  - unfold prologue. cbn [app box_after]. generalize (@None pystr).
    clear Hmain Hpartials.
    induction partials as [|a partials IH]; intros shown; [reflexivity|].
    destruct a; cbn [app box_after]; apply IH.
  - rewrite !elem_of_app. right; right. unfold epilogue.
    do 3 apply list_elem_of_further. apply list_elem_of_here.
  - intros body Hin.
    rewrite app_assoc in Hin. apply elem_of_app in Hin as [Hin|Hin].
    + exact (quiet_no_outcome _ _ (quiet_prologue _ _ _ _ _ Hpartials) Hin).
    + unfold epilogue in Hin.
      repeat (apply elem_of_cons in Hin as [Hin|Hin]; [discriminate Hin|]).
      now apply elem_of_nil in Hin.
Qed.

Lemma successful_run_witness :
  Write (py "Hola mundo") ∈ main (fun s => s) chatty sample_inputs
  /\ box_after (main (fun s => s) chatty sample_inputs) None
     = Some (py "Hola mundo").
Proof.
  assert (Hres : resolve_api_key (api_input sample_inputs)
                   (secrets sample_inputs) = inr (Some (py "sk-test")))
    by (vm_compute; reflexivity).
  assert (Hkey : truthy (py "sk-test") = true) by (vm_compute; reflexivity).
  assert (Hall : Forall has_choice sample_events)
    by (repeat constructor; discriminate).
  assert (Htext : concat_str (map event_text sample_events) = py "Hola mundo")
    by (vm_compute; reflexivity).
  destruct (successful_run (fun s => s) chatty sample_inputs sample_file
              (py "sk-test") _ sample_events
              eq_refl eq_refl eq_refl Hres Hkey sample_prompt eq_refl Hall)
    as [_ [Hbox [Hwrite _]]].
  rewrite Htext in Hbox, Hwrite. split; [exact Hwrite | exact Hbox].
Defined.

(** X10: a failure before the request is reported like any other and nothing
    is sent.  A file that cannot be read gives the error of [getvalue] right
    after the spinner; a mode without template gives the [KeyError], shown as
    [repr] of the mode, after the file has been read: the image is encoded
    before the prompt is composed. *)
Theorem failure_before_request (repr : pystr -> pystr)
    (api : list (pystr * pyval) -> response) (i : inputs)
    (file : UploadedFile) (api_key : option pystr) :
  analyze i = true -> uploaded i = Some file ->
  resolve_api_key (api_input i) (secrets i) = inr api_key ->
  truthy_opt api_key = true ->
  (closed file = true ->
     main repr api i
     = [ Spinner (py "Analizando imagen con GPT-4o...");
         Error (py "❌ Ocurrió un error: "
                  ++ py "I/O operation on closed file.") ])
  /\ (closed file = false -> mode i ∉ mode_options ->
      main repr api i
      = [ Spinner (py "Analizando imagen con GPT-4o...");
          GetValue (name file);
          Error (py "❌ Ocurrió un error: " ++ repr (mode i)) ])
  /\ (closed file = true \/ mode i ∉ mode_options ->
      requests (main repr api i) = []).
Proof.
  intros Hgo Hup Hres Hkey.
  assert (Hc : closed file = true ->
     main repr api i
     = [ Spinner (py "Analizando imagen con GPT-4o...");
         Error (py "❌ Ocurrió un error: "
                  ++ py "I/O operation on closed file.") ]).
  { intros Hclosed. unfold main. rewrite Hres, Hgo, Hup, Hkey. cbn [negb].
    now rewrite (analysis_closed api _ file i Hclosed). }
  assert (Hm : closed file = false -> mode i ∉ mode_options ->
      main repr api i
      = [ Spinner (py "Analizando imagen con GPT-4o...");
          GetValue (name file);
          Error (py "❌ Ocurrió un error: " ++ repr (mode i)) ]).
  { intros Hclosed Hmode. unfold main. rewrite Hres, Hgo, Hup, Hkey.
    cbn [negb].
    rewrite (analysis_unknown_mode api _ file i Hclosed); [reflexivity|].
    unfold full_prompt. now rewrite (prompt_map_None _ Hmode). }
  split; [exact Hc|]. split; [exact Hm|].
  intros Hearly. destruct (closed file) eqn:Hclosed.
  - now rewrite (Hc eq_refl).
  - destruct Hearly as [?|Hmode]; [discriminate|].
    now rewrite (Hm eq_refl Hmode).
Qed.

Lemma failure_before_request_witness :
  main (fun s => s) greeting sample_closed_file
  = [ Spinner (py "Analizando imagen con GPT-4o...");
      Error (py "❌ Ocurrió un error: I/O operation on closed file.") ]
  /\ main (fun s => s) greeting sample_unknown_mode
     = [ Spinner (py "Analizando imagen con GPT-4o...");
         GetValue (py "foto.jpg");
         Error (py "❌ Ocurrió un error: Resumen") ].
Proof.
  assert (Hres1 : resolve_api_key (api_input sample_closed_file)
                    (secrets sample_closed_file) = inr (Some (py "sk-test")))
    by (vm_compute; reflexivity).
  assert (Hres2 : resolve_api_key (api_input sample_unknown_mode)
                    (secrets sample_unknown_mode) = inr (Some (py "sk-test")))
    by (vm_compute; reflexivity).
  assert (Hkey : truthy_opt (Some (py "sk-test")) = true)
    by (vm_compute; reflexivity).
  assert (Hmode : mode sample_unknown_mode ∉ mode_options).
  { intros Hin. vm_compute in Hin.
    repeat (apply elem_of_cons in Hin as [Hin|Hin]; [discriminate Hin|]).
    now apply elem_of_nil in Hin. }
  destruct (failure_before_request (fun s => s) greeting sample_closed_file _
              _ eq_refl eq_refl Hres1 Hkey) as [H1 _].
  destruct (failure_before_request (fun s => s) greeting sample_unknown_mode _
              _ eq_refl eq_refl Hres2 Hkey) as [_ [H2 _]].
  split.
  - rewrite (H1 eq_refl). vm_compute. reflexivity.
  - rewrite (H2 eq_refl Hmode). vm_compute. reflexivity.
Defined.

(** ** The key, from the field to the request *)

Lemma lstrip_blank (s : pystr) : blank s -> lstrip s = [].
Proof.
  induction 1 as [|c s Hc _ IH]; [reflexivity|].
  cbn [lstrip]. now rewrite Hc.
Qed.

Lemma strip_blank_nil (s : pystr) : blank s -> strip s = [].
Proof.
  intros Hs. unfold strip. now rewrite (lstrip_blank s Hs).
Qed.

Lemma lstrip_trimmed (s : pystr) :
  (forall c, head s = Some c -> is_whitespace c = false) -> lstrip s = s.
Proof.
  destruct s as [|c s]; [reflexivity|].
  intros Hs. cbn [lstrip]. now rewrite (Hs c eq_refl).
Qed.

Lemma strip_trimmed (s : pystr) : trimmed s -> strip s = s.
Proof.
  intros [Hhead Hlast]. unfold strip, rstrip.
  rewrite (lstrip_trimmed s Hhead).
  rewrite lstrip_trimmed; [apply reverse_involutive|].
  intros c Hc. rewrite head_reverse in Hc. now apply Hlast.
Qed.

(** X11: blanks typed in the key field are an entry: the key becomes the empty
    string, the configured secret is not used, and pressing the button with an
    image uploaded only shows the warning about the key. *)
Theorem blank_entry_blocks_secret (repr : pystr -> pystr)
    (api : list (pystr * pyval) -> response) (i : inputs)
    (file : UploadedFile) :
  api_input i <> [] -> blank (api_input i) ->
  resolve_api_key (api_input i) (secrets i) = inr (Some [])
  /\ (analyze i = true -> uploaded i = Some file ->
      main repr api i
      = [Warning (py "🔑 Ingresa tu API key en la barra lateral.")]).
Proof.
  intros Hne Hblank.
  assert (Hres : resolve_api_key (api_input i) (secrets i) = inr (Some [])).
  { unfold resolve_api_key. destruct (api_input i) as [|c s] eqn:E;
      [contradiction|].
    cbn [truthy]. now rewrite (strip_blank_nil _ Hblank). }
  split; [exact Hres|].
  intros Hgo Hup. unfold main. now rewrite Hres, Hgo, Hup.
Qed.

Lemma blank_entry_blocks_secret_witness :
  secrets sample_blank_key
    = SecretsFile [(py "OPENAI_API_KEY", py "sk-secret")]
  /\ main (fun s => s) greeting sample_blank_key
     = [Warning (py "🔑 Ingresa tu API key en la barra lateral.")].
Proof.
  split; [reflexivity|].
  assert (Hne : api_input sample_blank_key <> [])
    by (vm_compute; discriminate).
  assert (Hblank : blank (api_input sample_blank_key))
    by (vm_compute; repeat constructor).
  destruct (blank_entry_blocks_secret (fun s => s) greeting sample_blank_key
              sample_file Hne Hblank) as [_ Hmain].
  apply Hmain; reflexivity.
Defined.

(** X12: the key that goes with a request is the key resolved from the page;
    it is never empty; when the user typed an entry it is that entry without
    the whitespace around it, and otherwise it is the configured secret. *)
Theorem request_key (repr : pystr -> pystr)
    (api : list (pystr * pyval) -> response) (i : inputs)
    (key : pystr) (kwargs : list (pystr * pyval)) :
  (key, kwargs) ∈ requests (main repr api i) ->
  resolve_api_key (api_input i) (secrets i) = inr (Some key)
  /\ key <> []
  /\ (api_input i <> [] -> key = strip (api_input i) /\ trimmed key)
  /\ (api_input i = [] ->
      exists entries,
        secrets i = SecretsFile entries
        /\ dict_get (py "OPENAI_API_KEY") entries = Some key).
Proof.
  intros Hin.
  assert (Hres : resolve_api_key (api_input i) (secrets i) = inr (Some key)).
  { destruct (requests_main repr api i)
      as [Hnone|[file [key' [prompt [_ [Hres [_ Hreq]]]]]]].
    - rewrite Hnone in Hin. now apply elem_of_nil in Hin.
    - rewrite Hreq in Hin. apply list_elem_of_singleton in Hin.
      now injection Hin as -> _. }
  split; [exact Hres|]. split; [|split].
  - intros ->. revert Hin. unfold main. rewrite Hres.
    destruct (analyze i); [|apply not_elem_of_nil].
    destruct (uploaded i); cbn; [apply not_elem_of_nil|apply not_elem_of_nil].
  - intros Hne. unfold resolve_api_key in Hres.
    destruct (api_input i) as [|c s] eqn:E; [contradiction|].
    cbn [truthy] in Hres. injection Hres as <-.
    split; [reflexivity | apply strip_spec].
  - intros E. unfold resolve_api_key in Hres. rewrite E in Hres.
    cbn [truthy] in Hres. destruct (secrets i) as [msg|entries];
      [discriminate|].
    exists entries. split; [reflexivity|].
    destruct (dict_get _ entries) as [secret|]; [|discriminate].
    now injection Hres as ->.
Qed.

Lemma request_key_witness :
  resolve_api_key (api_input sample_inputs) (secrets sample_inputs)
  = inr (Some (py "sk-test")).
Proof.
  apply (request_key (fun s => s) greeting sample_inputs (py "sk-test")
           (create_kwargs (py "TWFu")
              (py "Describe con detalle lo que se observa en la imagen: objetos, colores, iluminación, contexto y emociones visuales."
               ++ nl ++ nl ++ py "Responde en español.")
              (py "gpt-4o"))).
  rewrite sample_request. apply list_elem_of_here.
Defined.

(** X13: typing again the key the page resolved from an entry gives the same
    key: stripping is idempotent, and a text that neither begins nor ends
    with whitespace is left as it is. *)
Theorem resolve_api_key_stable (entry : pystr)
    (secrets1 secrets2 : secrets_store) (key : pystr) :
  entry <> [] -> key <> [] ->
  resolve_api_key entry secrets1 = inr (Some key) ->
  resolve_api_key key secrets2 = inr (Some key)
  /\ strip (strip entry) = strip entry.
Proof.
  intros Hentry Hkey Hres. unfold resolve_api_key in *.
  destruct entry as [|c s]; [contradiction|]. cbn [truthy] in Hres.
  injection Hres as <-.
  assert (Hidem : strip (strip (c :: s)) = strip (c :: s))
    by (apply strip_trimmed, strip_spec).
  split; [|exact Hidem].
  destruct (strip (c :: s)) as [|d k] eqn:E; [contradiction|].
  cbn [truthy]. now rewrite Hidem.
Qed.

Lemma resolve_api_key_stable_witness :
  resolve_api_key (py "sk-test")
    (SecretsFile [(py "OPENAI_API_KEY", py "sk-secret")])
  = inr (Some (py "sk-test")).
Proof.
  apply (resolve_api_key_stable (py " sk-test ") (SecretsFile []) _
           (py "sk-test")).
  - vm_compute. discriminate.
  - vm_compute. discriminate.
  - vm_compute. reflexivity.
Defined.

(** ** The image, from the file to the request *)

(** X14: the bytes of the uploaded file can be read back from every request:
    the image URL is the fixed prefix followed by a text whose base64
    decoding is the content of the file. *)
Theorem request_carries_image (repr : pystr -> pystr)
    (api : list (pystr * pyval) -> response) (i : inputs)
    (file : UploadedFile) (key : pystr) (kwargs : list (pystr * pyval)) :
  uploaded i = Some file ->
  (key, kwargs) ∈ requests (main repr api i) ->
  exists text,
    image_url kwargs = Some (VStr (py "data:image/png;base64," ++ text))
    /\ b64decode text = Some (data file).
Proof.
  intros Hup Hin.
  destruct (requests_main repr api i)
    as [Hnone|[file' [key' [prompt [Hup' [_ [_ Hreq]]]]]]].
  { rewrite Hnone in Hin. now apply elem_of_nil in Hin. }
  rewrite Hreq in Hin. apply list_elem_of_singleton in Hin.
  injection Hin as -> ->.
  rewrite Hup in Hup'. injection Hup' as <-.
  exists (b64encode (data file)). split.
  - vm_compute. reflexivity.
  - apply b64decode_b64encode.
Qed.

Lemma request_carries_image_witness :
  exists text,
    image_url
      (create_kwargs (py "TWFu")
         (py "Describe con detalle lo que se observa en la imagen: objetos, colores, iluminación, contexto y emociones visuales."
          ++ nl ++ nl ++ py "Responde en español.")
         (py "gpt-4o"))
    = Some (VStr (py "data:image/png;base64," ++ text))
    /\ b64decode text = Some [x4d; x61; x6e].
Proof.
  destruct (request_carries_image (fun s => s) greeting sample_inputs
              sample_file (py "sk-test")
              (create_kwargs (py "TWFu")
                 (py "Describe con detalle lo que se observa en la imagen: objetos, colores, iluminación, contexto y emociones visuales."
                  ++ nl ++ nl ++ py "Responde en español.")
                 (py "gpt-4o")) eq_refl)
    as [text [Hurl Hdec]].
  - rewrite sample_request. apply list_elem_of_here.
  - exists text. split; [exact Hurl | exact Hdec].
Defined.

(** ** The prompt keeps what the user selected *)

Lemma full_prompt_value (m language context template : pystr) :
  dict_get m prompt_map = Some template ->
  full_prompt m language context
  = ([], inr (template ++ nl ++ nl ++ lang_suffix language
                ++ context_block context)).
Proof.
  intros Hlook. unfold full_prompt, context_block. rewrite Hlook.
  destruct (truthy context).
  - now rewrite <- !app_assoc.
  - now rewrite !app_nil_r.
Qed.

Lemma context_block_inj (c1 c2 : pystr) :
  context_block c1 = context_block c2 -> c1 = c2.
Proof.
  unfold context_block.
  destruct c1 as [|x1 c1], c2 as [|x2 c2]; cbn [truthy]; intros E.
  - reflexivity.
  - unfold nl in E. discriminate E.
  - unfold nl in E. discriminate E.
  - now do 4 apply app_inv_head in E.
Qed.

(** X15: the prompt keeps the selection.  Two prompts composed for modes of
    the page are equal only when the modes are the same, the language
    directives are the same and the contexts are the same: in particular the
    context of the user is never lost or merged with another one. *)
Theorem full_prompt_injective (m1 m2 l1 l2 c1 c2 : pystr) :
  m1 ∈ mode_options -> m2 ∈ mode_options ->
  full_prompt m1 l1 c1 = full_prompt m2 l2 c2 ->
  m1 = m2 /\ lang_suffix l1 = lang_suffix l2 /\ c1 = c2.
Proof.
  intros H1 H2 E.
  destruct (prompt_map_Some m1 H1) as [t1 L1].
  destruct (prompt_map_Some m2 H2) as [t2 L2].
  rewrite (full_prompt_value _ _ _ _ L1), (full_prompt_value _ _ _ _ L2) in E.
  injection E as E.
  assert (Hm : m1 = m2 /\ t1 = t2).
  { unfold mode_options in H1, H2.
    repeat (apply elem_of_cons in H1 as [->|H1]);
      try (now apply elem_of_nil in H1);
      repeat (apply elem_of_cons in H2 as [->|H2]);
      try (now apply elem_of_nil in H2);
      vm_compute in L1, L2; injection L1 as <-; injection L2 as <-;
      first [ exfalso; vm_compute in E; discriminate E
            | split; reflexivity ]. }
  destruct Hm as [-> ->]. split; [reflexivity|].
  apply app_inv_head in E. unfold nl in E. cbn [app] in E.
  injection E as E.
  assert (Hs : lang_suffix l1 = lang_suffix l2
               /\ context_block c1 = context_block c2).
  { unfold lang_suffix in *.
    destruct (eqb_str l1 (py "Español")), (eqb_str l2 (py "Español")).
    - split; [reflexivity | now apply app_inv_head in E].
    - exfalso. vm_compute in E. discriminate E.
    - exfalso. vm_compute in E. discriminate E.
    - split; [reflexivity | now apply app_inv_head in E]. }
  destruct Hs as [Hs Hc]. split; [exact Hs | now apply context_block_inj].
Qed.

Lemma full_prompt_injective_witness :
  lang_suffix (py "Inglés") = lang_suffix (py "English")
  /\ py "un faro" = py "un faro".
Proof.
  assert (H1 : py "Historia creativa" ∈ mode_options).
  { unfold mode_options. do 3 apply list_elem_of_further.
    apply list_elem_of_here. }
  assert (E : full_prompt (py "Historia creativa") (py "Inglés") (py "un faro")
              = full_prompt (py "Historia creativa") (py "English")
                  (py "un faro"))
    by (vm_compute; reflexivity).
  destruct (full_prompt_injective _ _ _ _ _ _ H1 H1 E) as [_ [Hs Hc]].
  split; [exact Hs | exact Hc].
Defined.

(** ** When a request is sent *)




Lemma consume_growing_witness :
  last (renders (trace (consume [] sample_events)))
  = Some (py "Hola mundo" ++ marker).
Proof.
  destruct (consume_growing sample_events []) as [_ Hlast].
  assert (Hs : snd (consume [] sample_events) = inr (py "Hola mundo"))
    by (vm_compute; reflexivity).
  specialize (Hlast _ Hs).
  destruct (last (renders (trace (consume [] sample_events)))) as [body|] eqn:E.
  - now rewrite Hlast.
  - exfalso. vm_compute in E. discriminate E.
Defined.
